(** * Record validation of the space-station, alien-contact and space-mission models

    The three source files declare pydantic models: typed fields with
    [Field(...)] constraints, and (ex1, ex2) a [model_validator(mode="after")]
    holding the business rules.  This development embeds the declarations and
    the validators, together with the part of pydantic's validation that
    runs them: coercion of a raw value, the constraint checks of a field,
    the accumulation of field errors, and the call of the after-validator. *)

From Stdlib Require Import ZArith PrimFloat SpecFloat FloatOps Ascii String Btauto.
From stdpp Require Import gmap strings list pretty.

#[local] Set Warnings "-register-all,-inexact-float".

(** ** Python values used by the models *)

(** A [datetime] instant; only equality of instants matters here. *)
Definition datetime := Z.

(** [float(z)] for a Python int: the nearest binary64 value. *)
Definition float_of_Z (z : Z) : float :=
  SF2Prim (binary_normalize prec emax z 0 false).

(** The integer a float denotes, when it denotes one. *)
Definition float_as_Z (f : float) : option Z :=
  match Prim2SF f with
  | S754_zero _ => Some 0%Z
  | S754_finite s m e =>
      let mag :=
        if (0 <=? e)%Z then Some (Z.pos m * 2 ^ e)%Z
        else if (Z.pos m mod 2 ^ (- e) =? 0)%Z then Some (Z.pos m / 2 ^ (- e))%Z
        else None in
      (fun z : Z => if s then (- z)%Z else z) <$> mag
  | _ => None
  end.

(** ** The data model: one record per model class *)

Module ex0.

(** class SpaceStation(BaseModel) *)
Record SpaceStation := {
  station_id : string;
  name : string;
  crew_size : Z;
  power_level : float;
  oxygen_level : float;
  last_maintenance : datetime;
  is_operational : bool;
  notes : option string
}.

End ex0.

Module ex1.

(** class ContactType(str, Enum) *)
Inductive ContactType := radio | visual | physical | telepathic.

(** class AlienContact(BaseModel) *)
Record AlienContact := {
  contact_id : string;
  timestamp : datetime;
  location : string;
  contact_type : ContactType;
  signal_strength : float;
  duration_minutes : Z;
  witness_count : Z;
  message_received : option string;
  is_verified : bool
}.

End ex1.

Module ex2.

(** class Rank(str, Enum) *)
Inductive Rank := cadet | officer | lieutenant | captain | commander.

(** class CrewMember(BaseModel) *)
Record CrewMember := {
  member_id : string;
  name : string;
  rank : Rank;
  age : Z;
  specialization : string;
  years_experience : Z;
  is_active : bool
}.

(** class SpaceMission(BaseModel) *)
Record SpaceMission := {
  mission_id : string;
  mission_name : string;
  destination : string;
  launch_date : datetime;
  duration_days : Z;
  crew : list CrewMember;
  mission_status : string;
  budget_millions : float
}.

End ex2.

Import ex1 ex2.

(** ** Raw input values

    The value a caller passes for a field.  A member of a [str]-mixin enum
    ([Rank.commander], [ContactType.radio]) is a [str] equal to its value and
    is passed as [PyStr]; [PyObject] stands for any other object, such as the
    function [datetime.now] that [main] of ex2 passes for [launch_date]. *)
Inductive PyVal :=
| PyNone
| PyBool (b : bool)
| PyInt (z : Z)
| PyFloat (f : float)
| PyStr (s : string)
| PyDatetime (t : datetime)
| PyList (l : list PyVal)
| PyDict (d : gmap string PyVal)
| PyCrewMember (m : CrewMember)
| PyObject (what : string).

(** The keyword arguments of a model call. *)
Abbreviation kwargs := (gmap string PyVal).

(** ** Errors *)

(** The message of a [ValueError]: a literal, or the f-string of
    [validate_mission], a literal followed by the [repr] of a list of names. *)
Inductive Message :=
| Msg (s : string)
| MsgRepr (s : string) (names : list string).

Inductive LocItem := Key (k : string) | Idx (i : nat).

Inductive ErrorType :=
| missing
| string_type
| string_too_short (min_length : nat)
| string_too_long (max_length : nat)
| int_type
| int_parsing
| int_from_float
| finite_number
| greater_than_equal (ge : Z)
| less_than_equal (le : Z)
| float_type
| float_parsing
| float_greater_than_equal (ge : float)
| float_less_than_equal (le : float)
| bool_type
| bool_parsing
| datetime_type
| datetime_parsing
| enum (expected : list string)
| list_type
| too_short (min_length actual_length : nat)
| too_long (max_length actual_length : nat)
| model_type (class_name : string)
| frozen_instance
| value_error (msg : Message).

(** One entry of [ValidationError.errors()]. *)
Record ErrorDetails := { loc : list LocItem; type : ErrorType }.

Definition line_error (t : ErrorType) : ErrorDetails := {| loc := []; type := t |}.

Definition with_outer_location (l : LocItem) (e : ErrorDetails) : ErrorDetails :=
  {| loc := l :: loc e; type := type e |}.

(** The result of validating one value: the typed value, or line errors. *)
Inductive ValResult (A : Type) :=
| Ok (a : A)
| LineErrors (errors : list ErrorDetails).
Arguments Ok {A} a.
Arguments LineErrors {A} errors.

Definition line_errors {A} (r : ValResult A) : list ErrorDetails :=
  match r with Ok _ => [] | LineErrors es => es end.

Definition is_ok {A} (r : ValResult A) : bool :=
  match r with Ok _ => true | LineErrors _ => false end.

Definition Validator (A : Type) := PyVal -> ValResult A.

Definition outer {A} (l : LocItem) (r : ValResult A) : ValResult A :=
  match r with
  | Ok a => Ok a
  | LineErrors es => LineErrors (with_outer_location l <$> es)
  end.

(** Validation of the fields of a model goes through every field and keeps
    the errors of all of them, in the order of the fields. *)
Definition ap {A B} (rf : ValResult (A -> B)) (rx : ValResult A) : ValResult B :=
  match rf, rx with
  | Ok g, Ok a => Ok (g a)
  | _, _ => LineErrors (line_errors rf ++ line_errors rx)
  end.

Notation "f <*> x" := (ap f x) (at level 62, left associativity).

(** ** The world: the wall clock, and a trace of what ran

    [datetime.now] is the process-wide clock: each call consumes the next
    reading.  The trace records the clock reads, the entry of an
    after-validator and each business rule whose test is reached. *)
Inductive Event :=
| ClockRead (t : datetime)
| ValidatorEntered (validator : string)
| RuleChecked (validator : string) (position : nat).

Record World := {
  clock : nat -> datetime;
  ticks : nat;
  trace : list Event
}.

Definition St (A : Type) := World -> A * World.

Definition ret {A} (a : A) : St A := fun w => (a, w).

Definition bind {A B} (m : St A) (k : A -> St B) : St B :=
  fun w => let (a, w') := m w in k a w'.

Notation "x <- m ;; k" := (bind m (fun x => k))
  (at level 100, m at next level, right associativity).
Notation "m ;;; k" := (bind m (fun _ => k))
  (at level 100, right associativity).

Definition emit (e : Event) : St unit :=
  fun w => (tt, {| clock := clock w; ticks := ticks w; trace := trace w ++ [e] |}).

(** datetime.now() *)
Definition datetime_now : St datetime :=
  fun w =>
    let t := clock w (ticks w) in
    (t, {| clock := clock w; ticks := S (ticks w); trace := trace w ++ [ClockRead t] |}).

(** What a call raises.  A [ValidationError] carries the line errors. *)
Inductive Exception :=
| ValidationError (errors : list ErrorDetails)
| ValueError (msg : Message)
| ZeroDivisionError.

(** A Python call: it returns a value or raises. *)
Definition Py (A : Type) := St (Exception + A).

Definition raise {A} (e : Exception) : Py A := ret (inl e).

Definition bindP {A B} (m : Py A) (k : A -> Py B) : Py B :=
  r <- m ;; match r with inl e => ret (inl e) | inr a => k a end.

Notation "x <~ m ;; k" := (bindP m (fun x => k))
  (at level 100, m at next level, right associativity).

(** [if c: raise e] *)
Definition raise_if (c : bool) (e : Exception) : Py unit :=
  if c then raise e else ret (inr tt).

(** [a / b] on ints: true division.  Both operands of the source are
    counts below 2^53, for which the quotient of the two floats is the
    correctly rounded quotient. *)
Definition truediv (a b : Z) : Py float :=
  if (b =? 0)%Z then raise ZeroDivisionError
  else ret (inr (PrimFloat.div (float_of_Z a) (float_of_Z b))).

(** ** Coercion and constraints of a single value (pydantic, lax mode) *)

(** The parsers of lax mode turn a string into a number or an instant, and
    a number into an instant.  Their grammar plays no part in the models;
    they are parameters of the development. *)
Record LaxParsers := {
  str_as_int : string -> option Z;
  str_as_float : string -> option float;
  str_as_datetime : string -> option datetime;
  int_as_datetime : Z -> option datetime;
  float_as_datetime : float -> option datetime
}.

Definition lower (c : ascii) : ascii :=
  let n := nat_of_ascii c in
  if (65 <=? n)%nat && (n <=? 90)%nat then ascii_of_nat (n + 32) else c.

Fixpoint lower_str (s : string) : string :=
  match s with
  | EmptyString => EmptyString
  | String c s' => String (lower c) (lower_str s')
  end.

Definition str_in (s : string) (l : list string) : bool :=
  existsb (String.eqb s) l.

Definition str_as_bool (s : string) : option bool :=
  if str_in (lower_str s) ["0"; "off"; "f"; "false"; "n"; "no"]%string then Some false
  else if str_in (lower_str s) ["1"; "on"; "t"; "true"; "y"; "yes"]%string then Some true
  else None.

Definition fail {A} (t : ErrorType) : ValResult A := LineErrors [line_error t].

Definition below (n : nat) (bound : option nat) : bool :=
  match bound with Some m => (n <? m)%nat | None => false end.

Definition above (n : nat) (bound : option nat) : bool :=
  match bound with Some m => (m <? n)%nat | None => false end.

Section Validators.

Context (lax : LaxParsers).

(** str, with min_length and max_length *)
Definition str_validator (min_length max_length : option nat) : Validator string :=
  fun v =>
    match v with
    | PyStr s =>
        if below (String.length s) min_length
        then fail (string_too_short (default 0%nat min_length))
        else if above (String.length s) max_length
        then fail (string_too_long (default 0%nat max_length))
        else Ok s
    | _ => fail string_type
    end.

(** int coercion *)
Definition validate_int (v : PyVal) : ValResult Z :=
  match v with
  | PyInt z => Ok z
  | PyBool b => Ok (Z.b2z b)
  | PyFloat f =>
      if is_finite f then
        match float_as_Z f with Some z => Ok z | None => fail int_from_float end
      else fail finite_number
  | PyStr s =>
      match str_as_int lax s with Some z => Ok z | None => fail int_parsing end
  | _ => fail int_type
  end.

(** int, with ge and le *)
Definition int_validator (ge le : Z) : Validator Z :=
  fun v =>
    match validate_int v with
    | Ok z =>
        if (le <? z)%Z then fail (less_than_equal le)
        else if (z <? ge)%Z then fail (greater_than_equal ge)
        else Ok z
    | LineErrors es => LineErrors es
    end.

(** float coercion *)
Definition validate_float (v : PyVal) : ValResult float :=
  match v with
  | PyFloat f => Ok f
  | PyInt z =>
      if is_infinity (float_of_Z z) then fail float_type else Ok (float_of_Z z)
  | PyBool b => Ok (if b then 1%float else 0%float)
  | PyStr s =>
      match str_as_float lax s with Some f => Ok f | None => fail float_parsing end
  | _ => fail float_type
  end.

(** float, with ge and le; a NaN satisfies neither comparison *)
Definition float_validator (ge le : float) : Validator float :=
  fun v =>
    match validate_float v with
    | Ok f =>
        if negb (PrimFloat.leb f le) then fail (float_less_than_equal le)
        else if negb (PrimFloat.leb ge f) then fail (float_greater_than_equal ge)
        else Ok f
    | LineErrors es => LineErrors es
    end.

(** bool *)
Definition bool_validator : Validator bool :=
  fun v =>
    match v with
    | PyBool b => Ok b
    | PyInt z =>
        if (z =? 0)%Z then Ok false else if (z =? 1)%Z then Ok true else fail bool_parsing
    | PyFloat f =>
        if PrimFloat.eqb f 0 then Ok false
        else if PrimFloat.eqb f 1 then Ok true else fail bool_parsing
    | PyStr s =>
        match str_as_bool s with Some b => Ok b | None => fail bool_parsing end
    | _ => fail bool_type
    end.

(** datetime *)
Definition datetime_validator : Validator datetime :=
  fun v =>
    match v with
    | PyDatetime t => Ok t
    | PyStr s =>
        match str_as_datetime lax s with Some t => Ok t | None => fail datetime_parsing end
    | PyInt z =>
        match int_as_datetime lax z with Some t => Ok t | None => fail datetime_parsing end
    | PyFloat f =>
        match float_as_datetime lax f with Some t => Ok t | None => fail datetime_parsing end
    | _ => fail datetime_type
    end.

(** Optional[T] *)
Definition nullable {A} (inner : Validator A) : Validator (option A) :=
  fun v =>
    match v with
    | PyNone => Ok None
    | _ => match inner v with Ok a => Ok (Some a) | LineErrors es => LineErrors es end
    end.

End Validators.

(** ** The list validator

    The items are validated in order and their errors kept, each under the
    index of its item; the count of items seen is checked against
    [max_length] at every item, and exceeding it ends the validation with a
    single [too_long] error. *)
Fixpoint validate_iter_to_vec {A} (item : Validator A) (max_length : option nat)
    (actual_length : nat) (items : list PyVal) (index : nat)
    (output : list A) (errors : list ErrorDetails) : ValResult (list A) :=
  match items with
  | [] => match errors with [] => Ok output | _ => LineErrors errors end
  | x :: rest =>
      match item x with
      | Ok a =>
          if above (S index) max_length
          then fail (too_long (default 0%nat max_length) actual_length)
          else validate_iter_to_vec item max_length actual_length rest (S index)
                 (output ++ [a]) errors
      | LineErrors es =>
          if above (S index) max_length
          then fail (too_long (default 0%nat max_length) actual_length)
          else validate_iter_to_vec item max_length actual_length rest (S index)
                 output (errors ++ (with_outer_location (Idx index) <$> es))
      end
  end.

(** List[T], with min_length and max_length *)
Definition list_validator {A} (item : Validator A) (min_length max_length : option nat)
    : Validator (list A) :=
  fun v =>
    match v with
    | PyList l =>
        match validate_iter_to_vec item max_length (length l) l 0 [] [] with
        | Ok output =>
            if below (length output) min_length
            then fail (too_short (default 0%nat min_length) (length output))
            else Ok output
        | LineErrors es => LineErrors es
        end
    | _ => fail list_type
    end.

(** ** Fields of a model *)

(** A field looked up in the keyword arguments: a supplied value is
    validated, under the name of the field; an absent one takes the default,
    which is not validated, or is reported missing. *)
Definition field {A} (name : string) (v : Validator A) (dflt : option A)
    (kw : kwargs) : ValResult A :=
  match kw !! name with
  | Some x => outer (Key name) (v x)
  | None =>
      match dflt with
      | Some a => Ok a
      | None => LineErrors [{| loc := [Key name]; type := missing |}]
      end
  end.

(** Field(default_factory=f): the factory is called when the field is absent. *)
Definition factory_field {A} (name : string) (v : Validator A) (factory : St A)
    (kw : kwargs) : St (ValResult A) :=
  match kw !! name with
  | Some x => ret (outer (Key name) (v x))
  | None => a <- factory ;; ret (Ok a)
  end.

(** The call of a model class: the fields are validated; with no field error
    the instance is built and the after-validator, if any, runs on it.  A
    [ValueError] of the validator becomes the one line error of a
    [ValidationError]; any other exception leaves the call as it is. *)
Definition run_after {A} (name : string) (validator : A -> Py A) (self : A) : Py A :=
  emit (ValidatorEntered name) ;;;
  r <- validator self ;;
  match r with
  | inl (ValueError msg) => raise (ValidationError [line_error (value_error msg)])
  | inl e => raise e
  | inr a => ret (inr a)
  end.

Definition model_init {A} (fields : St (ValResult A)) (after : A -> Py A) : Py A :=
  r <- fields ;;
  match r with
  | LineErrors es => raise (ValidationError es)
  | Ok self => after self
  end.

Definition no_validator {A} (self : A) : Py A := ret (inr self).

(** The test of the business rule at [position] is reached. *)
Definition rule (validator : string) (position : nat) : Py unit :=
  emit (RuleChecked validator position) ;;; ret (inr tt).

(** model_config: no class of the source sets it, so every class has the
    defaults of BaseModel. *)
Record ConfigDict := { frozen : bool; validate_assignment : bool }.

Definition model_config : ConfigDict :=
  {| frozen := false; validate_assignment := false |}.

(** [self.f = value] on a model: refused on a frozen model, validated when
    the configuration asks for it, stored as it is otherwise. *)
Definition setattr {A} (config : ConfigDict) (revalidate : A -> Py A)
    (assign : A -> A) (self : A) : Py A :=
  if frozen config then raise (ValidationError [line_error frozen_instance])
  else if validate_assignment config then revalidate (assign self)
  else ret (inr (assign self)).

Definition truthy (s : option string) : bool :=
  match s with
  | None => false
  | Some EmptyString => false
  | Some _ => true
  end.

Section Models.

Context (lax : LaxParsers).

(** *** ex0/space_station.py *)

Definition station_id_field := str_validator (Some 3%nat) (Some 10%nat).
Definition station_name_field := str_validator (Some 1%nat) (Some 50%nat).
Definition crew_size_field := int_validator lax 1 20.
Definition power_level_field := float_validator lax 0 100.
Definition oxygen_level_field := float_validator lax 0 100.
Definition notes_field := nullable (str_validator None (Some 200%nat)).

(** The fields in the order of their declaration.  The one effect of the
    field phase is the call of the default factory, written first: the other
    fields read nothing of the world, and the errors keep the declared order. *)
Definition SpaceStation_fields (kw : kwargs) : St (ValResult ex0.SpaceStation) :=
  stamp <- factory_field "last_maintenance" (datetime_validator lax) datetime_now kw ;;
  ret (Ok ex0.Build_SpaceStation
         <*> field "station_id" station_id_field None kw
         <*> field "name" station_name_field None kw
         <*> field "crew_size" crew_size_field None kw
         <*> field "power_level" power_level_field None kw
         <*> field "oxygen_level" oxygen_level_field None kw
         <*> stamp
         <*> field "is_operational" bool_validator (Some true) kw
         <*> field "notes" notes_field (Some None) kw).

(** The call of the class with keyword arguments [kw]. *)
Definition SpaceStation_init (kw : kwargs) : Py ex0.SpaceStation :=
  model_init (SpaceStation_fields kw) no_validator.

(** *** ex1/alien_contact.py *)

Definition ContactType_values : list string :=
  ["radio"; "visual"; "physical"; "telepathic"]%string.

Definition ContactType_validator : Validator ContactType :=
  fun v =>
    match v with
    | PyStr s =>
        if String.eqb s "radio" then Ok radio
        else if String.eqb s "visual" then Ok visual
        else if String.eqb s "physical" then Ok physical
        else if String.eqb s "telepathic" then Ok telepathic
        else fail (enum ContactType_values)
    | _ => fail (enum ContactType_values)
    end.

Definition ContactType_eqb (a b : ContactType) : bool :=
  match a, b with
  | radio, radio | visual, visual | physical, physical | telepathic, telepathic => true
  | _, _ => false
  end.

Definition contact_id_field := str_validator (Some 5%nat) (Some 15%nat).
Definition location_field := str_validator (Some 3%nat) (Some 100%nat).
Definition signal_strength_field := float_validator lax 0 10.
Definition duration_minutes_field := int_validator lax 1 1440.
Definition witness_count_field := int_validator lax 1 100.
Definition message_received_field := nullable (str_validator None (Some 500%nat)).

Definition AlienContact_fields (kw : kwargs) : St (ValResult AlienContact) :=
  stamp <- factory_field "timestamp" (datetime_validator lax) datetime_now kw ;;
  ret (Ok Build_AlienContact
         <*> field "contact_id" contact_id_field None kw
         <*> stamp
         <*> field "location" location_field None kw
         <*> field "contact_type" ContactType_validator None kw
         <*> field "signal_strength" signal_strength_field None kw
         <*> field "duration_minutes" duration_minutes_field None kw
         <*> field "witness_count" witness_count_field None kw
         <*> field "message_received" message_received_field (Some None) kw
         <*> field "is_verified" bool_validator (Some false) kw).

Definition validate_contact (self : AlienContact) : Py AlienContact :=
  _ <~ rule "validate_contact" 1 ;;
  _ <~ raise_if (negb (String.eqb (substring 0 2 (contact_id self)) "AC"))
         (ValueError (Msg "Contact ID must start with AC")) ;;
  _ <~ rule "validate_contact" 2 ;;
  _ <~ raise_if (ContactType_eqb (contact_type self) physical && negb (is_verified self))
         (ValueError (Msg "Physical contact reports must be verified")) ;;
  _ <~ rule "validate_contact" 3 ;;
  _ <~ raise_if (ContactType_eqb (contact_type self) telepathic
                 && (witness_count self <? 3)%Z)
         (ValueError (Msg "Telepathic contact requires at least 3 witnesses")) ;;
  _ <~ rule "validate_contact" 4 ;;
  _ <~ raise_if (PrimFloat.ltb 7 (signal_strength self)
                 && negb (truthy (message_received self)))
         (ValueError (Msg "Strong signals (> 7.0) should include received messages")) ;;
  ret (inr self).

Definition AlienContact_init (kw : kwargs) : Py AlienContact :=
  model_init (AlienContact_fields kw) (run_after "validate_contact" validate_contact).

(** *** ex2/space_crew.py *)

Definition Rank_values : list string :=
  ["cadet"; "officer"; "lieutenant"; "captain"; "commander"]%string.

Definition Rank_validator : Validator Rank :=
  fun v =>
    match v with
    | PyStr s =>
        if String.eqb s "cadet" then Ok cadet
        else if String.eqb s "officer" then Ok officer
        else if String.eqb s "lieutenant" then Ok lieutenant
        else if String.eqb s "captain" then Ok captain
        else if String.eqb s "commander" then Ok commander
        else fail (enum Rank_values)
    | _ => fail (enum Rank_values)
    end.

Definition Rank_eqb (a b : Rank) : bool :=
  match a, b with
  | cadet, cadet | officer, officer | lieutenant, lieutenant
  | captain, captain | commander, commander => true
  | _, _ => false
  end.

Definition member_id_field := str_validator (Some 3%nat) (Some 10%nat).
Definition member_name_field := str_validator (Some 2%nat) (Some 50%nat).
Definition age_field := int_validator lax 18 80.
Definition specialization_field := str_validator (Some 3%nat) (Some 30%nat).
Definition years_experience_field := int_validator lax 0 50.

Definition CrewMember_fields (kw : kwargs) : ValResult CrewMember :=
  Ok Build_CrewMember
    <*> field "member_id" member_id_field None kw
    <*> field "name" member_name_field None kw
    <*> field "rank" Rank_validator None kw
    <*> field "age" age_field None kw
    <*> field "specialization" specialization_field None kw
    <*> field "years_experience" years_experience_field None kw
    <*> field "is_active" bool_validator (Some true) kw.

Definition CrewMember_init (kw : kwargs) : Py CrewMember :=
  model_init (ret (CrewMember_fields kw)) no_validator.

(** A value of type CrewMember inside another model: an instance is taken
    as it is, without a second validation; a mapping is validated. *)
Definition CrewMember_validator : Validator CrewMember :=
  fun v =>
    match v with
    | PyCrewMember m => Ok m
    | PyDict d => CrewMember_fields d
    | _ => fail (model_type "CrewMember")
    end.

Definition mission_id_field := str_validator (Some 5%nat) (Some 15%nat).
Definition mission_name_field := str_validator (Some 3%nat) (Some 100%nat).
Definition destination_field := str_validator (Some 3%nat) (Some 50%nat).
Definition duration_days_field := int_validator lax 1 3650.
Definition crew_field := list_validator CrewMember_validator (Some 1%nat) (Some 12%nat).
Definition mission_status_field := str_validator None None.
Definition budget_millions_field := float_validator lax 1 10000.

Definition SpaceMission_fields (kw : kwargs) : St (ValResult SpaceMission) :=
  stamp <- factory_field "launch_date" (datetime_validator lax) datetime_now kw ;;
  ret (Ok Build_SpaceMission
         <*> field "mission_id" mission_id_field None kw
         <*> field "mission_name" mission_name_field None kw
         <*> field "destination" destination_field None kw
         <*> stamp
         <*> field "duration_days" duration_days_field None kw
         <*> field "crew" crew_field None kw
         <*> field "mission_status" mission_status_field (Some "planned"%string) kw
         <*> field "budget_millions" budget_millions_field None kw).

Definition senior_ranks : list Rank := [commander; captain].

Definition rank_in (r : Rank) (ranks : list Rank) : bool :=
  existsb (Rank_eqb r) ranks.

Definition validate_mission (self : SpaceMission) : Py SpaceMission :=
  _ <~ rule "validate_mission" 1 ;;
  _ <~ raise_if (negb (String.prefix "M" (mission_id self)))
         (ValueError (Msg "Mission ID must start with 'M'")) ;;
  _ <~ rule "validate_mission" 2 ;;
  let has_senior := existsb (fun m => rank_in (rank m) senior_ranks) (crew self) in
  _ <~ raise_if (negb has_senior)
         (ValueError (Msg "Mission must have at least one Commander or Captain")) ;;
  _ <~ rule "validate_mission" 3 ;;
  _ <~ (if (365 <? duration_days self)%Z then
          let experienced :=
            length (List.filter (fun m => (4 <? years_experience m)%Z) (crew self)) in
          q <~ truediv (Z.of_nat experienced) (Z.of_nat (length (crew self))) ;;
          raise_if (PrimFloat.ltb q 0.5)
            (ValueError
               (Msg "For long missions (> 365 days) need 50% experienced crew (5+ years)"))
        else ret (inr tt)) ;;
  _ <~ rule "validate_mission" 4 ;;
  let inactive := ex2.name <$> List.filter (fun m => negb (is_active m)) (crew self) in
  _ <~ raise_if (match inactive with [] => false | _ => true end)
         (ValueError
            (MsgRepr "All crew members must be active. Inactive members: " inactive)) ;;
  ret (inr self).

Definition SpaceMission_init (kw : kwargs) : Py SpaceMission :=
  model_init (SpaceMission_fields kw) (run_after "validate_mission" validate_mission).

End Models.

(** ** Assignment to a field of an instance *)

Definition Rank_value (r : Rank) : string :=
  match r with
  | cadet => "cadet"
  | officer => "officer"
  | lieutenant => "lieutenant"
  | captain => "captain"
  | commander => "commander"
  end.

(** The fields of an instance as keyword arguments, for a new validation. *)
Definition SpaceStation_dump (s : ex0.SpaceStation) : kwargs :=
  list_to_map
    [("station_id", PyStr (ex0.station_id s));
     ("name", PyStr (ex0.name s));
     ("crew_size", PyInt (ex0.crew_size s));
     ("power_level", PyFloat (ex0.power_level s));
     ("oxygen_level", PyFloat (ex0.oxygen_level s));
     ("last_maintenance", PyDatetime (ex0.last_maintenance s));
     ("is_operational", PyBool (ex0.is_operational s));
     ("notes", match ex0.notes s with Some n => PyStr n | None => PyNone end)]%string.

Definition CrewMember_dump (m : CrewMember) : kwargs :=
  list_to_map
    [("member_id", PyStr (member_id m));
     ("name", PyStr (ex2.name m));
     ("rank", PyStr (Rank_value (rank m)));
     ("age", PyInt (age m));
     ("specialization", PyStr (specialization m));
     ("years_experience", PyInt (years_experience m));
     ("is_active", PyBool (is_active m))]%string.

(** [station.f = value] and [member.f = value], under the configuration of
    the classes. *)
Definition SpaceStation_setattr (lax : LaxParsers)
    (assign : ex0.SpaceStation -> ex0.SpaceStation) (self : ex0.SpaceStation)
    : Py ex0.SpaceStation :=
  setattr model_config (fun s => SpaceStation_init lax (SpaceStation_dump s)) assign self.


(** station.crew_size = v *)
Definition set_crew_size (v : Z) (s : ex0.SpaceStation) : ex0.SpaceStation :=
  {| ex0.station_id := ex0.station_id s;
     ex0.name := ex0.name s;
     ex0.crew_size := v;
     ex0.power_level := ex0.power_level s;
     ex0.oxygen_level := ex0.oxygen_level s;
     ex0.last_maintenance := ex0.last_maintenance s;
     ex0.is_operational := ex0.is_operational s;
     ex0.notes := ex0.notes s |}.


(** ** The constraints of the fields, on a built record *)

Definition length_within (s : string) (lo hi : nat) : bool :=
  (lo <=? String.length s)%nat && (String.length s <=? hi)%nat.

Definition int_within (z lo hi : Z) : bool := (lo <=? z)%Z && (z <=? hi)%Z.

Definition float_within (f lo hi : float) : bool := PrimFloat.leb lo f && PrimFloat.leb f hi.

Definition optional_within (s : option string) (hi : nat) : bool :=
  match s with
  | Some x => (String.length x <=? hi)%nat
  | None => true
  end.

Definition SpaceStation_constraints (s : ex0.SpaceStation) : bool :=
  length_within (ex0.station_id s) 3 10
  && length_within (ex0.name s) 1 50
  && int_within (ex0.crew_size s) 1 20
  && float_within (ex0.power_level s) 0 100
  && float_within (ex0.oxygen_level s) 0 100
  && optional_within (ex0.notes s) 200.

Definition AlienContact_constraints (c : AlienContact) : bool :=
  length_within (contact_id c) 5 15
  && length_within (location c) 3 100
  && float_within (signal_strength c) 0 10
  && int_within (duration_minutes c) 1 1440
  && int_within (witness_count c) 1 100
  && optional_within (message_received c) 500.

Definition CrewMember_constraints (m : CrewMember) : bool :=
  length_within (member_id m) 3 10
  && length_within (ex2.name m) 2 50
  && int_within (age m) 18 80
  && length_within (specialization m) 3 30
  && int_within (years_experience m) 0 50.

(** The constraints of the fields of the mission itself; those of its crew
    members are CrewMember_constraints. *)
Definition SpaceMission_constraints (m : SpaceMission) : bool :=
  length_within (mission_id m) 5 15
  && length_within (mission_name m) 3 100
  && length_within (destination m) 3 50
  && int_within (duration_days m) 1 3650
  && (1 <=? length (crew m))%nat && (length (crew m) <=? 12)%nat
  && float_within (budget_millions m) 1 10000.

(** ** Violated constraints, field by field

    What a record violates, stated apart from the validation of the whole
    record: each field is looked at alone.  A scalar field counts once, under
    its name; the size of a list and the items of the list are looked at
    independently, an item's violations under the index of the item. *)






Section Violations.

Context (lax : LaxParsers).






End Violations.


(** The events added between two traces. *)
Definition only_clock_reads (before after : list Event) : Prop :=
  exists added, after = before ++ added /\ forall e, e ∈ added -> exists t, e = ClockRead t.

(** ** Concrete inputs *)

(** Lax parsers that accept no string and no timestamp. *)
Definition no_parsers : LaxParsers :=
  {| str_as_int := fun _ => None;
     str_as_float := fun _ => None;
     str_as_datetime := fun _ => None;
     int_as_datetime := fun _ => None;
     float_as_datetime := fun _ => None |}.

(** A clock that advances by one at each reading. *)
Definition ticking (start : Z) : World :=
  {| clock := fun n => (start + Z.of_nat n)%Z; ticks := 0; trace := [] |}.

Definition kw_of (l : list (string * PyVal)) : kwargs := list_to_map l.

(** The first station of [main] in ex0. *)
Definition station1 : kwargs :=
  kw_of [("station_id", PyStr "ISS001");
         ("name", PyStr "International Space Station");
         ("crew_size", PyInt 6);
         ("power_level", PyFloat 85.5);
         ("oxygen_level", PyFloat 92.3)]%string.

(** The second station of [main] in ex0. *)
Definition station2 : kwargs := <["crew_size"%string := PyInt 155]> station1.

(** The keyword arguments of a crew member. *)
Definition member_kw (id nm rk sp : string) (years old : Z) : kwargs :=
  kw_of [("member_id", PyStr id); ("name", PyStr nm); ("rank", PyStr rk);
         ("age", PyInt old); ("specialization", PyStr sp);
         ("years_experience", PyInt years)]%string.

(** A crew member given as a mapping. *)
Definition member (id nm rk sp : string) (years old : Z) : PyVal :=
  PyDict (member_kw id nm rk sp years old).


Definition sarah : PyVal := member "C001" "Sarah Connor" "commander" "Mission Command" 15 40.
Definition john : PyVal := member "C002" "John Smith" "lieutenant" "Navigation" 8 32.
Definition alice : PyVal := member "C003" "Alice Johnson" "officer" "Engineering" 5 28.
Definition bob : PyVal := member "C004" "Bob" "cadet" "Cleaning" 1 22.

Definition mission_of (id : string) (days : Z) (members : list PyVal) : kwargs :=
  kw_of [("mission_id", PyStr id);
         ("mission_name", PyStr "Mars Colony Establishment");
         ("destination", PyStr "Mars");
         ("duration_days", PyInt days);
         ("crew", PyList members);
         ("budget_millions", PyFloat 2500)]%string.


Definition contact_of (id kind : string) (signal : float) (witnesses : Z)
    (message : PyVal) : kwargs :=
  kw_of [("contact_id", PyStr id);
         ("contact_type", PyStr kind);
         ("location", PyStr "Area 51, Nevada");
         ("signal_strength", PyFloat signal);
         ("duration_minutes", PyInt 45);
         ("witness_count", PyInt witnesses);
         ("message_received", message)]%string.

(** The two contacts of [main] in ex1. *)
Definition contact1 : kwargs :=
  contact_of "AC_2024_001" "radio" 8.5 5 (PyStr "Greetings from Zeta Reticuli").
Definition contact2 : kwargs :=
  contact_of "AC_2020_983" "telepathic" 8.5 1 (PyStr "Greetings from Zeta Reticuli").

(** A contact that breaks the first and the third rule. *)
Definition contact_two_rules : kwargs :=
  contact_of "XX_2020_983" "telepathic" 2.5 1 PyNone.

(** A strong signal with an empty message. *)
Definition contact_empty_message : kwargs :=
  contact_of "AC_2024_001" "radio" 8.5 5 (PyStr "").

(** A mission that breaks the first and the second rule. *)
Definition mission_two_rules : kwargs := mission_of "X2024_MOON" 30 [bob].

Definition rookie : PyVal := member "C006" "Eve Moneypenny" "officer" "Botany" 2 25.

(** A long mission with one experienced member out of three. *)
Definition mission_third : kwargs := mission_of "M2024_MARS" 900 [sarah; bob; rookie].

(** A long mission with one experienced member out of two. *)
Definition mission_half : kwargs := mission_of "M2024_MARS" 900 [sarah; bob].

(** The first mission of [main] in ex2: the launch date passed is the
    function datetime.now, not an instant. *)
Definition mission1 : kwargs :=
  <["launch_date"%string := PyObject "datetime.now"]>
    (mission_of "M2024_MARS" 900 [sarah; john; alice]).

(** The same member, marked as not active. *)
Definition retired (m : PyVal) : PyVal :=
  match m with
  | PyDict d => PyDict (<["is_active"%string := PyBool false]> d)
  | _ => m
  end.

(** A short mission, two of whose four members are not active. *)
Definition mission_inactive : kwargs :=
  mission_of "M2024_MOON" 30 [sarah; retired john; alice; retired bob].




(** ** The business rules, one by one

    Each rule of a validator stated alone, by its position in the validator:
    whether a record violates it, and the message of its error. *)

Definition contact_rule_violated (position : nat) (c : AlienContact) : bool :=
  match position with
  | 1 => negb (String.eqb (substring 0 2 (contact_id c)) "AC")
  | 2 => ContactType_eqb (contact_type c) physical && negb (is_verified c)
  | 3 => ContactType_eqb (contact_type c) telepathic && (witness_count c <? 3)%Z
  | 4 => PrimFloat.ltb 7 (signal_strength c) && negb (truthy (message_received c))
  | _ => false
  end%nat.

Definition contact_rule_message (position : nat) (c : AlienContact) : Message :=
  match position with
  | 1 => Msg "Contact ID must start with AC"
  | 2 => Msg "Physical contact reports must be verified"
  | 3 => Msg "Telepathic contact requires at least 3 witnesses"
  | _ => Msg "Strong signals (> 7.0) should include received messages"
  end%nat.

(** The crew members with more than 4 years of experience. *)
Definition experienced (m : SpaceMission) : nat :=
  length (List.filter (fun c => (4 <? years_experience c)%Z) (crew m)).

(** The names of the crew members that are not active, in crew order. *)
Definition inactive (m : SpaceMission) : list string :=
  ex2.name <$> List.filter (fun c => negb (is_active c)) (crew m).

Definition has_senior (m : SpaceMission) : bool :=
  existsb (fun c => rank_in (rank c) senior_ranks) (crew m).

Definition mission_rule_violated (position : nat) (m : SpaceMission) : bool :=
  match position with
  | 1 => negb (String.prefix "M" (mission_id m))
  | 2 => negb (has_senior m)
  | 3 => (365 <? duration_days m)%Z
         && PrimFloat.ltb
              (PrimFloat.div (float_of_Z (Z.of_nat (experienced m)))
                 (float_of_Z (Z.of_nat (length (crew m)))))
              0.5
  | 4 => match inactive m with [] => false | _ => true end
  | _ => false
  end%nat.

Definition mission_rule_message (position : nat) (m : SpaceMission) : Message :=
  match position with
  | 1 => Msg "Mission ID must start with 'M'"
  | 2 => Msg "Mission must have at least one Commander or Captain"
  | 3 => Msg "For long missions (> 365 days) need 50% experienced crew (5+ years)"
  | _ => MsgRepr "All crew members must be active. Inactive members: " (inactive m)
  end%nat.

(** The world after more events. *)
Definition log (events : list Event) (w : World) : World :=
  {| clock := clock w; ticks := ticks w; trace := trace w ++ events |}.

(** A rule phase as the specification words it: the rules are tried in
    order, the first violated one stops the phase and is the one error; with
    no rule violated the record is returned. *)
Definition fail_fast {A} (name : string) (count : nat) (violated : nat -> A -> bool)
    (message : nat -> A -> Message) (self : A) (w : World) : (Exception + A) * World :=
  match List.find (fun k => violated k self) (seq 1 count) with
  | Some i =>
      (inl (ValidationError [line_error (value_error (message i self))]),
       log (ValidatorEntered name :: (RuleChecked name <$> seq 1 i)) w)
  | None =>
      (inr self, log (ValidatorEntered name :: (RuleChecked name <$> seq 1 count)) w)
  end.

(** The test of the rule at [position] of validator [name] was reached
    between two traces. *)
Definition evaluated (name : string) (position : nat) (before after : list Event) : Prop :=
  exists added, after = before ++ added /\ RuleChecked name position ∈ added.

(** ** Inclusive bounds

    What it is for the bounds of a field to be inclusive: a value at a bound
    is accepted, a value one unit past it is refused.  For a float the unit
    is taken both as 1.0 and as the step to the next float. *)






(** ** The clock *)

(** What the next call of datetime.now returns. *)
Definition next_reading (w : World) : datetime := clock w (ticks w).

(** The number of clock reads of a call on [kw] that leaves the world [after]
    when started in [before]: one when the field [name] is absent, none
    when it is supplied. *)
Definition reads_clock_iff_absent (name : string) (kw : kwargs) (before after : World)
    : Prop :=
  ticks after = (ticks before + match kw !! name with Some _ => 0 | None => 1 end)%nat.

(** A world whose clock stands still, with a past of its own. *)
Definition frozen_clock (t : datetime) : World :=
  {| clock := fun _ => t; ticks := 7; trace := [ClockRead 3%Z] |}.

(** ** Notions used by the properties *)

(** A validator of a scalar: it accepts, or reports one error at the value. *)
Definition scalar {A} (v : Validator A) : Prop :=
  forall x, match v x with Ok _ => True | LineErrors es => exists t, es = [line_error t] end.

(** The errors of the items of a list, each under the index of its item. *)
Fixpoint items_errors {A} (item : Validator A) (index : nat) (items : list PyVal)
    : list ErrorDetails :=
  match items with
  | [] => []
  | x :: rest =>
      (with_outer_location (Idx index) <$> line_errors (item x))
      ++ items_errors item (S index) rest
  end.

(** A failing validation reports at least one error. *)
Definition honest {A} (r : ValResult A) : Prop := r <> LineErrors [].


(** The outcome of a call in two worlds. *)
Definition same_outcome {A} (call : Py A) (w1 w2 : World) : Prop :=
  fst (call w1) = fst (call w2).

(** ** The declared fields, by name *)

Definition SpaceStation_declared : list string :=
  ["station_id"; "name"; "crew_size"; "power_level"; "oxygen_level";
   "last_maintenance"; "is_operational"; "notes"]%string.

Definition AlienContact_declared : list string :=
  ["contact_id"; "timestamp"; "location"; "contact_type"; "signal_strength";
   "duration_minutes"; "witness_count"; "message_received"; "is_verified"]%string.

Definition CrewMember_declared : list string :=
  ["member_id"; "name"; "rank"; "age"; "specialization"; "years_experience";
   "is_active"]%string.

Definition SpaceMission_declared : list string :=
  ["mission_id"; "mission_name"; "destination"; "launch_date"; "duration_days";
   "crew"; "mission_status"; "budget_millions"]%string.

(** The fields declared with [Field(...)] or [Field()], without a default. *)
Definition SpaceStation_required : list string :=
  ["station_id"; "name"; "crew_size"; "power_level"; "oxygen_level"]%string.

Definition AlienContact_required : list string :=
  ["contact_id"; "location"; "contact_type"; "signal_strength"; "duration_minutes";
   "witness_count"]%string.

Definition CrewMember_required : list string :=
  ["member_id"; "name"; "rank"; "age"; "specialization"; "years_experience"]%string.

Definition SpaceMission_required : list string :=
  ["mission_id"; "mission_name"; "destination"; "duration_days"; "crew";
   "budget_millions"]%string.

Definition missing_at (name : string) : ErrorDetails :=
  {| loc := [Key name]; type := missing |}.

(** The call fails, and its errors hold [e]. *)
Definition fails_with {A} (call : Py A) (w : World) (e : ErrorDetails) : Prop :=
  exists es, fst (call w) = inl (ValidationError es) /\ e ∈ es.

(** ** A record as keyword arguments *)

Definition ContactType_value (c : ContactType) : string :=
  match c with
  | radio => "radio"
  | visual => "visual"
  | physical => "physical"
  | telepathic => "telepathic"
  end.

Definition optional_str (s : option string) : PyVal :=
  match s with Some x => PyStr x | None => PyNone end.

Definition AlienContact_dump (c : AlienContact) : kwargs :=
  list_to_map
    [("contact_id", PyStr (contact_id c));
     ("timestamp", PyDatetime (timestamp c));
     ("location", PyStr (location c));
     ("contact_type", PyStr (ContactType_value (contact_type c)));
     ("signal_strength", PyFloat (signal_strength c));
     ("duration_minutes", PyInt (duration_minutes c));
     ("witness_count", PyInt (witness_count c));
     ("message_received", optional_str (message_received c));
     ("is_verified", PyBool (is_verified c))]%string.

(** The crew is passed as the instances themselves, as main does. *)
Definition SpaceMission_dump (m : SpaceMission) : kwargs :=
  list_to_map
    [("mission_id", PyStr (mission_id m));
     ("mission_name", PyStr (mission_name m));
     ("destination", PyStr (destination m));
     ("launch_date", PyDatetime (launch_date m));
     ("duration_days", PyInt (duration_days m));
     ("crew", PyList (PyCrewMember <$> crew m));
     ("mission_status", PyStr (mission_status m));
     ("budget_millions", PyFloat (budget_millions m))]%string.

(** ** The shape of a failure *)



(** ** The display functions

    What each function prints, one string per call of print.  An int is
    printed in decimal; the text of a float is left to [float_str]. *)

Section Display.

Context (float_str : float -> string).

(** ex0: display_station *)
Definition display_station (station : ex0.SpaceStation) : list string :=
  let status :=
    if ex0.is_operational station then "Operational" else "Non-operational" in
  ["Valid station created:";
   "ID: " +:+ ex0.station_id station;
   "Name: " +:+ ex0.name station;
   "Crew: " +:+ pretty (ex0.crew_size station) +:+ " people";
   "Power: " +:+ float_str (ex0.power_level station) +:+ "%";
   "Oxygen: " +:+ float_str (ex0.oxygen_level station) +:+ "%";
   "Status: " +:+ status]%string.

(** ex1: display_contact *)
Definition display_contact (contact : AlienContact) : list string :=
  ["Valid contact report:";
   "ID: " +:+ contact_id contact;
   "Type: " +:+ ContactType_value (contact_type contact);
   "Location: " +:+ location contact;
   "Signal: " +:+ float_str (signal_strength contact) +:+ "/10";
   "Duration: " +:+ pretty (duration_minutes contact) +:+ " minutes";
   "Witnesses: " +:+ pretty (witness_count contact);
   "Message: " +:+ default "None" (message_received contact)]%string.



End Display.

(** A result that is [Ok a] exactly when [c] holds. *)
Definition accepts_when {A} (r : ValResult A) (a : A) (c : bool) : Prop :=
  (c = true -> r = Ok a) /\ (c = false -> is_ok r = false).

(** The call returns [a] exactly when [valid] holds, and returns nothing
    else. *)
Definition returns_exactly {A} (call : Py A) (w : World) (a : A) (valid : Prop) : Prop :=
  (fst (call w) = inr a <-> valid) /\ (forall r, fst (call w) = inr r -> r = a).


(** A contact whose signal is exactly 7.0, with no message. *)
Definition contact_at_threshold : kwargs := contact_of "AC_2024_001" "radio" 7 5 PyNone.

(** A mission of exactly 365 days whose only member, a captain, has one
    year of experience. *)
Definition mission_one_year : kwargs :=
  mission_of "M2024_MOON" 365 [member "C007" "James Kirk" "captain" "Command" 1 35].

(** * Properties *)

(** ** The accumulation of field errors *)

Lemma line_errors_ap {A B} (rf : ValResult (A -> B)) (rx : ValResult A) :
  line_errors (rf <*> rx) = line_errors rf ++ line_errors rx.
Proof. destruct rf, rx; reflexivity. Qed.

Lemma is_ok_ap {A B} (rf : ValResult (A -> B)) (rx : ValResult A) :
  is_ok (rf <*> rx) = is_ok rf && is_ok rx.
Proof. destruct rf, rx; reflexivity. Qed.

Lemma ap_Ok_inv {A B} (rf : ValResult (A -> B)) (rx : ValResult A) (b : B) :
  rf <*> rx = Ok b -> exists g a, rf = Ok g /\ rx = Ok a /\ b = g a.
Proof.
  destruct rf as [g|], rx as [a|]; simpl; intros H; try discriminate.
  injection H as <-. eauto.
Qed.

Lemma fst_bind_ret {A B} (m : St A) (f : A -> B) (w : World) :
  fst ((x <- m ;; ret (f x)) w) = f (fst (m w)).
Proof. unfold bind, ret. destruct (m w); reflexivity. Qed.

Lemma snd_bind_ret {A B} (m : St A) (f : A -> B) (w : World) :
  snd ((x <- m ;; ret (f x)) w) = snd (m w).
Proof. unfold bind, ret. destruct (m w); reflexivity. Qed.

Ltac innermost_case :=
  match goal with
  | |- context [match ?e with _ => _ end] =>
      lazymatch e with
      | context [match _ with _ => _ end] => fail
      | _ => destruct e
      end
  end.

Ltac scalar_cases := repeat (simpl; innermost_case); simpl; eauto.

Lemma scalar_str lo hi : scalar (str_validator lo hi).
Proof. intros x. unfold str_validator, fail. scalar_cases. Qed.

Lemma scalar_int lax lo hi : scalar (int_validator lax lo hi).
Proof. intros x. unfold int_validator, validate_int, fail. scalar_cases. Qed.

Lemma scalar_float lax lo hi : scalar (float_validator lax lo hi).
Proof. intros x. unfold float_validator, validate_float, fail. scalar_cases. Qed.

Lemma scalar_bool : scalar bool_validator.
Proof. intros x. unfold bool_validator, fail. scalar_cases. Qed.

Lemma scalar_datetime lax : scalar (datetime_validator lax).
Proof. intros x. unfold datetime_validator, fail. scalar_cases. Qed.

Lemma scalar_nullable {A} (v : Validator A) : scalar v -> scalar (nullable v).
Proof.
  intros Hv x. unfold nullable.
  destruct x; simpl; auto;
    match goal with |- context [v ?y] => specialize (Hv y); destruct (v y); auto end.
Qed.

Lemma scalar_ContactType : scalar ContactType_validator.
Proof. intros x. unfold ContactType_validator, fail. scalar_cases. Qed.

Lemma scalar_Rank : scalar Rank_validator.
Proof. intros x. unfold Rank_validator, fail. scalar_cases. Qed.

Create HintDb scalar.

#[local] Hint Resolve scalar_str scalar_int scalar_float scalar_bool scalar_datetime
  scalar_nullable scalar_ContactType scalar_Rank : scalar.







(** *** The list of crew members *)

Lemma iter_within_max {A} (item : Validator A) max n items :
  (forall x, item x <> LineErrors []) ->
  forall index output errors,
    (index + length items <= max)%nat ->
    match validate_iter_to_vec item (Some max) n items index output errors with
    | Ok out =>
        errors ++ items_errors item index items = []
        /\ length out = (length output + length items)%nat
    | LineErrors es =>
        es = errors ++ items_errors item index items /\ es <> []
    end.
Proof.
  intros Hitem.
  induction items as [|x rest IH]; intros index output errors Hlen; simpl in *.
  - rewrite app_nil_r. destruct errors; simpl; auto with lia.
  - assert (Hab : (max <? S index)%nat = false) by (apply Nat.ltb_ge; lia).
    specialize (Hitem x).
    destruct (item x) as [a|es]; simpl; rewrite Hab.
    + specialize (IH (S index) (output ++ [a]) errors ltac:(lia)).
      destruct (validate_iter_to_vec _ _ _ _ _ _ _) as [out|es2].
      * destruct IH as [? Hl]. split; [assumption|].
        rewrite Hl, length_app. simpl. lia.
      * assumption.
    + specialize (IH (S index) output
                    (errors ++ (with_outer_location (Idx index) <$> es)) ltac:(lia)).
      rewrite <- app_assoc in IH.
      destruct (validate_iter_to_vec _ _ _ _ _ _ _) as [out|es2].
      * destruct IH as [Hnil _]. exfalso.
        destruct es; [congruence|].
        destruct errors; discriminate Hnil.
      * assumption.
Qed.

Lemma iter_beyond_max {A} (item : Validator A) max n items :
  forall index output errors,
    (max < index + length items)%nat -> (index <= max)%nat ->
    validate_iter_to_vec item (Some max) n items index output errors
    = fail (too_long max n).
Proof.
  induction items as [|x rest IH]; intros index output errors Hlen Hidx; simpl in *.
  - lia.
  - destruct (decide (index = max)) as [->|Hne].
    + replace (max <? S max)%nat with true by (symmetry; apply Nat.ltb_lt; lia).
      destruct (item x); reflexivity.
    + replace (max <? S index)%nat with false by (symmetry; apply Nat.ltb_ge; lia).
      destruct (item x); apply IH; lia.
Qed.

Lemma honest_ap {A B} (rf : ValResult (A -> B)) (rx : ValResult A) :
  honest rf -> honest rx -> honest (rf <*> rx).
Proof.
  unfold honest. destruct rf as [g|[|e es]], rx as [a|[|e2 es2]]; simpl; congruence.
Qed.

Lemma honest_field {A} name (v : Validator A) dflt kw :
  scalar v -> honest (field name v dflt kw).
Proof.
  intros Hv. unfold honest, field.
  destruct (kw !! name) as [x|]; [|destruct dflt; discriminate].
  specialize (Hv x). destruct (v x); simpl; [discriminate|].
  destruct Hv as [t ->]. discriminate.
Qed.

Lemma honest_CrewMember_fields lax kw : honest (CrewMember_fields lax kw).
Proof.
  unfold CrewMember_fields.
  repeat apply honest_ap; try (apply honest_field; auto with scalar).
  - discriminate.
  - unfold member_id_field; auto with scalar.
  - unfold member_name_field; auto with scalar.
  - unfold age_field; auto with scalar.
  - unfold specialization_field; auto with scalar.
  - unfold years_experience_field; auto with scalar.
Qed.

Lemma honest_CrewMember_validator lax x : CrewMember_validator lax x <> LineErrors [].
Proof.
  destruct x; simpl; try discriminate. apply honest_CrewMember_fields.
Qed.



(** The errors of the crew field, for a list within the maximal length. *)
Lemma crew_field_within_max lax l :
  (length l <= 12)%nat ->
  match crew_field lax (PyList l) with
  | Ok out => length out = length l /\ (1 <= length l)%nat
              /\ items_errors (CrewMember_validator lax) 0 l = []
  | LineErrors es =>
      (l = [] /\ es = [line_error (too_short 1 0)])
      \/ (es = items_errors (CrewMember_validator lax) 0 l /\ es <> [])
  end.
Proof.
  intros Hlen. unfold crew_field, list_validator.
  pose proof (iter_within_max (CrewMember_validator lax) 12 (length l) l
                (honest_CrewMember_validator lax) 0 [] [] ltac:(simpl; lia)) as H.
  destruct (validate_iter_to_vec _ _ _ _ _ _ _) as [out|es].
  - destruct H as [Hnil Hl]. simpl in Hnil, Hl. simpl default. cbn [below].
    destruct (length out <? 1)%nat eqn:Hb.
    + apply Nat.ltb_lt in Hb. left.
      assert (l = []) as -> by (destruct l; [reflexivity|simpl in *; lia]).
      split; [reflexivity|]. unfold fail. repeat f_equal.
      simpl in Hl. lia.
    + apply Nat.ltb_ge in Hb. repeat split; auto; lia.
  - right. destruct H as [-> Hne]. auto.
Qed.


(** A crew list beyond the maximal length: one error, whatever the items. *)
Lemma crew_field_beyond_max lax l :
  (12 < length l)%nat ->
  crew_field lax (PyList l) = fail (too_long 12 (length l)).
Proof.
  intros Hlen. unfold crew_field, list_validator.
  rewrite iter_beyond_max by (simpl; lia). reflexivity.
Qed.


(** ** Field errors stop the call before the rule phase *)

Lemma model_init_errors {A} (fields : St (ValResult A)) (after : A -> Py A) w es :
  fst (fields w) = LineErrors es ->
  model_init fields after w = (inl (ValidationError es), snd (fields w)).
Proof.
  unfold model_init, bind, raise, ret. destruct (fields w) as [r w1]; simpl.
  intros ->. reflexivity.
Qed.

Lemma model_init_ok {A} (fields : St (ValResult A)) (after : A -> Py A) w self :
  fst (fields w) = Ok self ->
  model_init fields after w = after self (snd (fields w)).
Proof.
  unfold model_init, bind. destruct (fields w) as [r w1]; simpl.
  intros ->. reflexivity.
Qed.

Lemma only_clock_reads_refl tr : only_clock_reads tr tr.
Proof. exists []. rewrite app_nil_r. split; [reflexivity|]. intros e He. inversion He. Qed.

Lemma factory_field_trace name (v : Validator datetime) kw w :
  only_clock_reads (trace w) (trace (snd (factory_field name v datetime_now kw w))).
Proof.
  unfold factory_field. destruct (kw !! name); simpl.
  - apply only_clock_reads_refl.
  - eexists. split; [reflexivity|]. intros e He.
    apply list_elem_of_singleton in He. eauto.
Qed.



Lemma SpaceMission_fields_trace lax kw w :
  only_clock_reads (trace w) (trace (snd (SpaceMission_fields lax kw w))).
Proof. unfold SpaceMission_fields. rewrite snd_bind_ret. apply factory_field_trace. Qed.





(** ** The rule phase is fail-fast *)

Lemma log_log es1 es2 w : log es2 (log es1 w) = log (es1 ++ es2) w.
Proof. unfold log; simpl. rewrite <- app_assoc. reflexivity. Qed.

Lemma emit_log e w : emit e w = (tt, log [e] w).
Proof. reflexivity. Qed.

Ltac run_rules :=
  cbv [bindP bind rule raise_if raise ret]; repeat rewrite emit_log;
  repeat (rewrite ?log_log; simpl).

Lemma validate_contact_fail_fast self w :
  run_after "validate_contact" validate_contact self w
  = fail_fast "validate_contact" 4 contact_rule_violated contact_rule_message self w.
Proof.
  unfold run_after, validate_contact, fail_fast. simpl List.find.
  destruct (negb (String.eqb (substring 0 2 (contact_id self)) "AC")).
  { run_rules. reflexivity. }
  destruct (ContactType_eqb (contact_type self) physical && negb (is_verified self)).
  { run_rules. reflexivity. }
  destruct (ContactType_eqb (contact_type self) telepathic && (witness_count self <? 3)%Z).
  { run_rules. reflexivity. }
  destruct (PrimFloat.ltb 7 (signal_strength self) && negb (truthy (message_received self))).
  { run_rules. reflexivity. }
  run_rules. reflexivity.
Qed.

Lemma has_senior_crew self : has_senior self = true -> (1 <= length (crew self))%nat.
Proof.
  unfold has_senior. destruct (crew self); simpl; [discriminate|lia].
Qed.

Lemma truediv_nonzero a b w :
  (b <> 0)%Z ->
  truediv a b w = (inr (PrimFloat.div (float_of_Z a) (float_of_Z b)), w).
Proof.
  intros Hb. unfold truediv. apply Z.eqb_neq in Hb. rewrite Hb. reflexivity.
Qed.

Lemma validate_mission_fail_fast self w :
  run_after "validate_mission" validate_mission self w
  = fail_fast "validate_mission" 4 mission_rule_violated mission_rule_message self w.
Proof.
  unfold run_after, validate_mission, fail_fast. simpl List.find.
  fold (has_senior self). fold (experienced self). fold (inactive self).
  destruct (negb (String.prefix "M" (mission_id self))).
  { run_rules. reflexivity. }
  destruct (has_senior self) eqn:Hsenior; simpl negb; cbv iota.
  2:{ run_rules. reflexivity. }
  apply has_senior_crew in Hsenior.
  destruct (365 <? duration_days self)%Z; simpl andb; cbv iota.
  - cbv [bindP bind rule raise_if raise ret]. repeat rewrite emit_log.
    cbv beta iota. rewrite truediv_nonzero by lia. cbv beta iota.
    destruct (PrimFloat.ltb _ 0.5).
    { repeat (rewrite ?log_log; simpl). reflexivity. }
    repeat rewrite emit_log. cbv beta iota.
    destruct (inactive self) eqn:Hin; repeat (rewrite ?log_log; simpl);
      rewrite ?Hin; reflexivity.
  - cbv [bindP bind rule raise_if raise ret]. repeat rewrite emit_log.
    cbv beta iota.
    destruct (inactive self) eqn:Hin; repeat (rewrite ?log_log; simpl);
      rewrite ?Hin; reflexivity.
Qed.

Lemma find_seq_first (f : nat -> bool) len : forall start i,
  (start <= i < start + len)%nat ->
  f i = true ->
  (forall k, (start <= k < i)%nat -> f k = false) ->
  List.find f (seq start len) = Some i.
Proof.
  induction len as [|len IH]; intros start i Hi Hfi Hbefore; simpl; [lia|].
  destruct (decide (start = i)) as [->|Hne].
  - rewrite Hfi. reflexivity.
  - rewrite (Hbefore start) by lia. apply IH; [lia|assumption|].
    intros k Hk. apply Hbefore. lia.
Qed.

Lemma fail_fast_first {A} name count (violated : nat -> A -> bool) message self w i j :
  (1 <= i)%nat -> (i < j)%nat -> (i <= count)%nat ->
  violated i self = true ->
  (forall k, (k < i)%nat -> violated k self = false) ->
  fst (fail_fast name count violated message self w)
  = inl (ValidationError [line_error (value_error (message i self))])
  /\ ~ evaluated name j (trace w) (trace (snd (fail_fast name count violated message self w))).
Proof.
  intros H1 Hij Hc Hi Hbefore. unfold fail_fast.
  rewrite (find_seq_first _ count 1 i) by (auto with lia).
  split; [reflexivity|]. simpl.
  intros (added & Heq & Hin). apply app_inv_head in Heq. subst added.
  apply elem_of_cons in Hin as [Hin|Hin]; [discriminate|].
  apply list_elem_of_fmap in Hin as (k & Hk & Hin). injection Hk as <-.
  apply elem_of_seq in Hin. lia.
Qed.

(** C2: a record that passes the field phase and violates the rules at
    positions i and j, i before j, is refused with exactly one error, that of
    rule i; the test of rule j is not reached. *)
Theorem rule_phase_fail_fast (lax : LaxParsers) (kw : kwargs) (w : World) (i j : nat) :
  (i < j)%nat ->
  (forall self,
      fst (AlienContact_fields lax kw w) = Ok self ->
      (forall k, contact_rule_violated k self = true <-> k = i \/ k = j) ->
      fst (AlienContact_init lax kw w)
      = inl (ValidationError [line_error (value_error (contact_rule_message i self))])
      /\ ~ evaluated "validate_contact" j
           (trace (snd (AlienContact_fields lax kw w)))
           (trace (snd (AlienContact_init lax kw w))))
  /\ (forall self,
      fst (SpaceMission_fields lax kw w) = Ok self ->
      (forall k, mission_rule_violated k self = true <-> k = i \/ k = j) ->
      fst (SpaceMission_init lax kw w)
      = inl (ValidationError [line_error (value_error (mission_rule_message i self))])
      /\ ~ evaluated "validate_mission" j
           (trace (snd (SpaceMission_fields lax kw w)))
           (trace (snd (SpaceMission_init lax kw w)))).
Proof.
  intros Hij. split; intros self Hfields Hviolated.
  - unfold AlienContact_init. rewrite (model_init_ok _ _ _ _ Hfields).
    rewrite validate_contact_fail_fast.
    assert (Hi : contact_rule_violated i self = true) by (apply Hviolated; auto).
    assert (Hj : contact_rule_violated j self = true) by (apply Hviolated; auto).
    apply fail_fast_first; try assumption.
    + destruct i; [discriminate Hi|lia].
    + do 5 (destruct i as [|i]; try lia). discriminate Hi.
    + intros k Hk. destruct (contact_rule_violated k self) eqn:Hvk; [|reflexivity].
      apply Hviolated in Hvk. lia.
  - unfold SpaceMission_init. rewrite (model_init_ok _ _ _ _ Hfields).
    rewrite validate_mission_fail_fast.
    assert (Hi : mission_rule_violated i self = true) by (apply Hviolated; auto).
    apply fail_fast_first; try assumption.
    + destruct i; [discriminate Hi|lia].
    + do 5 (destruct i as [|i]; try lia). discriminate Hi.
    + intros k Hk. destruct (mission_rule_violated k self) eqn:Hvk; [|reflexivity].
      apply Hviolated in Hvk. lia.
Qed.

Ltac exactly_two :=
  intros [|[|[|[|[|?]]]]];
  (split;
   [intros Hviol; first [discriminate Hviol | vm_compute in Hviol; discriminate Hviol | auto]
   |intros [Hpos|Hpos]; first [discriminate Hpos | vm_compute; reflexivity]]).

Lemma rule_phase_fail_fast_witness :
  (fst (AlienContact_init no_parsers contact_two_rules (ticking 0))
   = inl (ValidationError [line_error (value_error (Msg "Contact ID must start with AC"))])
   /\ ~ evaluated "validate_contact" 3
        (trace (snd (AlienContact_fields no_parsers contact_two_rules (ticking 0))))
        (trace (snd (AlienContact_init no_parsers contact_two_rules (ticking 0)))))
  /\ (fst (SpaceMission_init no_parsers mission_two_rules (ticking 0))
      = inl (ValidationError [line_error (value_error (Msg "Mission ID must start with 'M'"))])
      /\ ~ evaluated "validate_mission" 2
           (trace (snd (SpaceMission_fields no_parsers mission_two_rules (ticking 0))))
           (trace (snd (SpaceMission_init no_parsers mission_two_rules (ticking 0))))).
Proof.
  split.
  - destruct (rule_phase_fail_fast no_parsers contact_two_rules (ticking 0) 1 3 ltac:(lia))
      as [H _].
    eapply H; [vm_compute; reflexivity|exactly_two].
  - destruct (rule_phase_fail_fast no_parsers mission_two_rules (ticking 0) 1 2 ltac:(lia))
      as [_ H].
    eapply H; [vm_compute; reflexivity|exactly_two].
Defined.

(** ** Rule 4 of the contact validator *)

(** C5, as stated, fails on the empty message: it is supplied and is not
    None, the record passes the field phase and rules 1 to 3, the signal is
    above 7.0, and rule 4 refuses the record. *)
Lemma empty_message_fails_rule_4 :
  match fst (AlienContact_fields no_parsers contact_empty_message (ticking 0)) with
  | Ok self =>
      message_received self = Some ""%string
      /\ contact_rule_violated 1 self = false
      /\ contact_rule_violated 2 self = false
      /\ contact_rule_violated 3 self = false
      /\ PrimFloat.ltb 7 (signal_strength self) = true
  | LineErrors _ => False
  end
  /\ fst (AlienContact_init no_parsers contact_empty_message (ticking 0))
     = inl (ValidationError
              [line_error
                 (value_error
                    (Msg "Strong signals (> 7.0) should include received messages"))]).
Proof. vm_compute. repeat split. Qed.

(** C5 (as amended): for a contact that passes the field phase and rules 1
    to 3 and whose signal is above 7.0, validation succeeds if and only if
    message_received is a string that is not empty; None and the empty string
    are refused alike by rule 4. *)
Theorem strong_signal_needs_message (lax : LaxParsers) (kw : kwargs) (w : World)
    (self : AlienContact) :
  fst (AlienContact_fields lax kw w) = Ok self ->
  contact_rule_violated 1 self = false ->
  contact_rule_violated 2 self = false ->
  contact_rule_violated 3 self = false ->
  PrimFloat.ltb 7 (signal_strength self) = true ->
  (fst (AlienContact_init lax kw w) = inr self
   <-> exists s, message_received self = Some s /\ s <> ""%string)
  /\ (fst (AlienContact_init lax kw w) <> inr self ->
      fst (AlienContact_init lax kw w)
      = inl (ValidationError
               [line_error
                  (value_error
                     (Msg "Strong signals (> 7.0) should include received messages"))])).
Proof.
  intros Hfields H1 H2 H3 Hsignal.
  unfold AlienContact_init. rewrite (model_init_ok _ _ _ _ Hfields).
  rewrite validate_contact_fail_fast. unfold fail_fast. simpl List.find.
  simpl in H1, H2, H3. rewrite H1, H2, H3, Hsignal. simpl andb.
  destruct (message_received self) as [[|c s]|]; simpl.
  - split; [|reflexivity]. split; [discriminate|].
    intros (s & Hs & Hne). injection Hs as <-. congruence.
  - split; [|congruence]. split; [|reflexivity].
    intros _. eexists. split; [reflexivity|discriminate].
  - split; [|reflexivity]. split; [discriminate|].
    intros (s & Hs & _). discriminate.
Qed.

Lemma strong_signal_needs_message_witness :
  fst (AlienContact_init no_parsers contact1 (ticking 1000))
  = inr {| contact_id := "AC_2024_001";
           timestamp := 1000%Z;
           location := "Area 51, Nevada";
           contact_type := radio;
           signal_strength := 8.5;
           duration_minutes := 45;
           witness_count := 5;
           message_received := Some "Greetings from Zeta Reticuli"%string;
           is_verified := false |}.
Proof.
  refine (proj2 (proj1 (strong_signal_needs_message no_parsers contact1 (ticking 1000)
                          _ _ _ _ _ _)) _);
    try (vm_compute; reflexivity).
  eexists. split; [reflexivity|discriminate].
Defined.

(** ** The crew of a validated mission *)

Ltac invert_fields H :=
  repeat (let g := fresh "g" in let a := fresh "a" in
          let Hg := fresh "Hg" in let Ha := fresh "Ha" in
          apply ap_Ok_inv in H as (g & a & Hg & Ha & ->); rename Hg into H);
  injection H as <-.

Lemma SpaceMission_fields_crew lax kw w self :
  fst (SpaceMission_fields lax kw w) = Ok self ->
  field "crew" (crew_field lax) None kw = Ok (crew self).
Proof.
  unfold SpaceMission_fields. rewrite fst_bind_ret. intros H.
  invert_fields H. simpl. assumption.
Qed.

Lemma crew_field_length lax kw out :
  field "crew" (crew_field lax) None kw = Ok out -> (1 <= length out <= 12)%nat.
Proof.
  unfold field. destruct (kw !! "crew"%string) as [x|]; [|discriminate].
  destruct (crew_field lax x) as [out2|es] eqn:Hcrew; simpl; [|discriminate].
  intros [= <-]. destruct x; try discriminate Hcrew.
  destruct (decide (length l <= 12)%nat) as [Hle|Hgt].
  - pose proof (crew_field_within_max lax l Hle) as H. rewrite Hcrew in H. lia.
  - rewrite crew_field_beyond_max in Hcrew by lia. discriminate.
Qed.

Lemma SpaceMission_crew_length lax kw w self :
  fst (SpaceMission_fields lax kw w) = Ok self -> (1 <= length (crew self) <= 12)%nat.
Proof. intros H. eapply crew_field_length, SpaceMission_fields_crew, H. Qed.

Lemma experienced_le self : (experienced self <= length (crew self))%nat.
Proof. unfold experienced. apply List.filter_length_le. Qed.

(** The quotient of two small counts, as a float, is below 0.5 exactly when
    the fraction is below one half. *)
Lemma ratio_below_half (e n : nat) :
  (1 <= n <= 12)%nat -> (e <= n)%nat ->
  PrimFloat.ltb (PrimFloat.div (float_of_Z (Z.of_nat e)) (float_of_Z (Z.of_nat n))) 0.5
  = (2 * e <? n)%nat.
Proof.
  intros Hn He.
  do 13 (destruct n as [|n];
         [try lia; do 13 (destruct e as [|e]; [try lia; vm_compute; reflexivity|]); lia|]).
  lia.
Qed.

(** ** Rule 3 of the mission validator *)

(** C7: for a mission that passes the field phase, whose id starts with M
    and which has a senior member, over more than 365 days: the call fails
    with the error of rule 3 if and only if the members with more than 4
    years of experience are less than half of the crew (2e < n for e
    experienced members out of n); with exactly half, rule 3 passes and the
    test of rule 4 is reached. *)
Theorem long_mission_half_experienced (lax : LaxParsers) (kw : kwargs) (w : World)
    (self : SpaceMission) :
  fst (SpaceMission_fields lax kw w) = Ok self ->
  String.prefix "M" (mission_id self) = true ->
  has_senior self = true ->
  (365 < duration_days self)%Z ->
  (fst (SpaceMission_init lax kw w)
   = inl (ValidationError
            [line_error
               (value_error
                  (Msg "For long missions (> 365 days) need 50% experienced crew (5+ years)"))])
   <-> (2 * experienced self < length (crew self))%nat)
  /\ ((2 * experienced self = length (crew self))%nat ->
      evaluated "validate_mission" 4
        (trace (snd (SpaceMission_fields lax kw w)))
        (trace (snd (SpaceMission_init lax kw w)))).
Proof.
  intros Hfields Hid Hsenior Hlong.
  pose proof (SpaceMission_crew_length _ _ _ _ Hfields) as Hcrew.
  pose proof (experienced_le self) as Hexp.
  unfold SpaceMission_init. rewrite (model_init_ok _ _ _ _ Hfields).
  rewrite validate_mission_fail_fast. unfold fail_fast. simpl List.find.
  rewrite Hid, Hsenior. simpl negb. cbv iota.
  apply Z.ltb_lt in Hlong. rewrite Hlong. simpl andb.
  rewrite ratio_below_half by assumption.
  destruct (2 * experienced self <? length (crew self))%nat eqn:Hhalf.
  - apply Nat.ltb_lt in Hhalf. simpl. split; [tauto|lia].
  - apply Nat.ltb_ge in Hhalf.
    assert (Hreached : forall tr events,
               In (RuleChecked "validate_mission" 4) events ->
               evaluated "validate_mission" 4 tr (tr ++ events)).
    { intros tr events Hin. exists events. split; [reflexivity|].
      apply list_elem_of_In. assumption. }
    destruct (inactive self) eqn:Hin; simpl.
    + split; [split; [discriminate|lia]|].
      intros _. apply Hreached. simpl. tauto.
    + split; [split; [discriminate|lia]|].
      intros _. apply Hreached. simpl. tauto.
Qed.

Lemma long_mission_half_experienced_witness :
  fst (SpaceMission_init no_parsers mission_third (ticking 0))
  = inl (ValidationError
           [line_error
              (value_error
                 (Msg "For long missions (> 365 days) need 50% experienced crew (5+ years)"))])
  /\ evaluated "validate_mission" 4
       (trace (snd (SpaceMission_fields no_parsers mission_half (ticking 0))))
       (trace (snd (SpaceMission_init no_parsers mission_half (ticking 0)))).
Proof.
  split.
  - refine (proj2 (proj1 (long_mission_half_experienced no_parsers mission_third (ticking 0)
                            _ _ _ _ _)) _);
      try (vm_compute; reflexivity).
  - refine (proj2 (long_mission_half_experienced no_parsers mission_half (ticking 0)
                     _ _ _ _ _) _);
      try (vm_compute; reflexivity).
Defined.

(** ** Rule 4 of the mission validator *)

Lemma inactive_nil self :
  inactive self = [] <-> forall c, c ∈ crew self -> is_active c = true.
Proof.
  unfold inactive. induction (crew self) as [|c cs IH]; simpl.
  - split; [|reflexivity]. intros _ c Hc. inversion Hc.
  - destruct (is_active c) eqn:Hc; simpl.
    + rewrite IH. split.
      * intros H c2 Hc2. apply elem_of_cons in Hc2 as [->|Hc2]; auto.
      * intros H c2 Hc2. apply H. apply elem_of_cons. auto.
    + split; [discriminate|]. intros H.
      specialize (H c ltac:(apply elem_of_cons; auto)). congruence.
Qed.

Lemma inactive_named self c :
  c ∈ crew self -> is_active c = false -> ex2.name c ∈ inactive self.
Proof.
  intros Hc Hactive. unfold inactive. apply list_elem_of_fmap_2.
  apply list_elem_of_In, List.filter_In. split; [apply list_elem_of_In; assumption|].
  rewrite Hactive. reflexivity.
Qed.

(** C8: a mission that passes the field phase and rules 1 to 3 is refused if
    and only if some crew member is not active, and the message of the error
    lists the name of every member that is not active. *)
Theorem inactive_members_named (lax : LaxParsers) (kw : kwargs) (w : World)
    (self : SpaceMission) :
  fst (SpaceMission_fields lax kw w) = Ok self ->
  mission_rule_violated 1 self = false ->
  mission_rule_violated 2 self = false ->
  mission_rule_violated 3 self = false ->
  ((exists e, fst (SpaceMission_init lax kw w) = inl e)
   <-> exists c, c ∈ crew self /\ is_active c = false)
  /\ ((exists c, c ∈ crew self /\ is_active c = false) ->
      exists names,
        fst (SpaceMission_init lax kw w)
        = inl (ValidationError
                 [line_error
                    (value_error
                       (MsgRepr "All crew members must be active. Inactive members: "
                          names))])
        /\ forall c, c ∈ crew self -> is_active c = false -> ex2.name c ∈ names)
  /\ ((forall c, c ∈ crew self -> is_active c = true) ->
      fst (SpaceMission_init lax kw w) = inr self).
Proof.
  intros Hfields H1 H2 H3.
  unfold SpaceMission_init. rewrite (model_init_ok _ _ _ _ Hfields).
  rewrite validate_mission_fail_fast. unfold fail_fast. simpl List.find.
  simpl in H1, H2, H3. rewrite H1, H2, H3.
  pose proof (inactive_nil self) as Hnil.
  assert (Hsome : forall c, c ∈ crew self -> is_active c = false -> inactive self <> []).
  { intros c Hc Hactive Heq. rewrite (proj1 Hnil Heq c Hc) in Hactive.
    discriminate. }
  destruct (inactive self) as [|n ns] eqn:Hin; simpl.
  - repeat split.
    + intros [e He]. discriminate.
    + intros (c & Hc & Hactive). exfalso. eapply Hsome; eauto.
    + intros (c & Hc & Hactive). exfalso. eapply Hsome; eauto.
  - repeat split.
    + intros _.
      destruct (decide (Forall (fun c => is_active c = true) (crew self))) as [Hall|Hnot].
      * exfalso. rewrite Forall_forall in Hall.
        pose proof (proj2 Hnil Hall) as Habs. discriminate Habs.
      * apply not_Forall_Exists in Hnot; [|intros c; apply _].
        apply Exists_exists in Hnot as (c & Hc & Hactive).
        exists c. split; [assumption|]. simpl in Hactive.
        destruct (is_active c); congruence.
    + intros _. eauto.
    + intros _. exists (n :: ns). split; [rewrite Hin; reflexivity|].
      intros c Hc Hactive. rewrite <- Hin. apply inactive_named; assumption.
    + intros Hall. pose proof (proj2 Hnil Hall) as Habs. discriminate Habs.
Qed.

Lemma inactive_members_named_witness :
  exists names,
    fst (SpaceMission_init no_parsers mission_inactive (ticking 0))
    = inl (ValidationError
             [line_error
                (value_error
                   (MsgRepr "All crew members must be active. Inactive members: " names))])
    /\ "John Smith"%string ∈ names /\ "Bob"%string ∈ names.
Proof.
  destruct (inactive_members_named no_parsers mission_inactive (ticking 0)
              {| mission_id := "M2024_MOON";
                 mission_name := "Mars Colony Establishment";
                 destination := "Mars";
                 launch_date := 0%Z;
                 duration_days := 30;
                 crew :=
                   [ {| member_id := "C001"; name := "Sarah Connor"; rank := commander;
                        age := 40; specialization := "Mission Command";
                        years_experience := 15; is_active := true |};
                     {| member_id := "C002"; name := "John Smith"; rank := lieutenant;
                        age := 32; specialization := "Navigation";
                        years_experience := 8; is_active := false |};
                     {| member_id := "C003"; name := "Alice Johnson"; rank := officer;
                        age := 28; specialization := "Engineering";
                        years_experience := 5; is_active := true |};
                     {| member_id := "C004"; name := "Bob"; rank := cadet;
                        age := 22; specialization := "Cleaning";
                        years_experience := 1; is_active := false |} ];
                 mission_status := "planned";
                 budget_millions := 2500 |}
              ltac:(vm_compute; reflexivity) ltac:(vm_compute; reflexivity)
              ltac:(vm_compute; reflexivity) ltac:(vm_compute; reflexivity))
    as (_ & Hnamed & _).
  destruct Hnamed as (names & Hfails & Hnames).
  { eexists. split; [apply elem_of_cons; right; apply elem_of_cons; left; reflexivity|].
    reflexivity. }
  exists names. split; [exact Hfails|]. split.
  - apply (Hnames {| member_id := "C002"; name := "John Smith"; rank := lieutenant;
                     age := 32; specialization := "Navigation";
                     years_experience := 8; is_active := false |});
      [|reflexivity].
    apply elem_of_cons; right; apply elem_of_cons; left; reflexivity.
  - apply (Hnames {| member_id := "C004"; name := "Bob"; rank := cadet;
                     age := 22; specialization := "Cleaning";
                     years_experience := 1; is_active := false |});
      [|reflexivity].
    do 3 (apply elem_of_cons; right). apply elem_of_cons; left; reflexivity.
Defined.

(** ** The division of rule 3 *)

(** The model of [/] does raise on a zero divisor. *)
Example truediv_by_zero : fst (truediv 3 0 (ticking 0)) = inl ZeroDivisionError.
Proof. reflexivity. Qed.

Lemma fail_fast_outcome {A} name count violated message (self : A) w :
  (exists es, fst (fail_fast name count violated message self w) = inl (ValidationError es))
  \/ fst (fail_fast name count violated message self w) = inr self.
Proof.
  unfold fail_fast. destruct (List.find _ _); simpl; eauto.
Qed.

(** C10: the call of SpaceMission never raises ZeroDivisionError.  The
    validator is entered only with a record built by the field phase, whose
    crew has at least one member; an empty crew list is refused in the field
    phase, with the too_short error of the crew field; and the validator
    itself, on any record, raises no ZeroDivisionError, rule 2 coming first. *)
Theorem crew_ratio_defined (lax : LaxParsers) (kw : kwargs) (w : World) :
  fst (SpaceMission_init lax kw w) <> inl ZeroDivisionError
  /\ (forall added,
        trace (snd (SpaceMission_init lax kw w)) = trace w ++ added ->
        ValidatorEntered "validate_mission" ∈ added ->
        exists self,
          fst (SpaceMission_fields lax kw w) = Ok self /\ (1 <= length (crew self))%nat)
  /\ (kw !! "crew"%string = Some (PyList []) ->
      exists es,
        fst (SpaceMission_init lax kw w) = inl (ValidationError es)
        /\ {| loc := [Key "crew"]; type := too_short 1 0 |} ∈ es)
  /\ (forall self w1,
        fst (run_after "validate_mission" validate_mission self w1) <> inl ZeroDivisionError).
Proof.
  assert (Hrules : forall self w1,
             fst (run_after "validate_mission" validate_mission self w1)
             <> inl ZeroDivisionError).
  { intros self w1. rewrite validate_mission_fail_fast.
    destruct (fail_fast_outcome "validate_mission" 4 mission_rule_violated
                mission_rule_message self w1) as [[es ->]| ->]; discriminate. }
  destruct (fst (SpaceMission_fields lax kw w)) as [self|es] eqn:Hfields.
  - unfold SpaceMission_init. rewrite (model_init_ok _ _ _ _ Hfields).
    repeat split.
    + apply Hrules.
    + intros _ _ _. exists self. split; [reflexivity|].
      apply (SpaceMission_crew_length _ _ _ _ Hfields).
    + intros Hkw. apply SpaceMission_fields_crew in Hfields.
      unfold field in Hfields. rewrite Hkw in Hfields. discriminate Hfields.
    + apply Hrules.
  - unfold SpaceMission_init. rewrite (model_init_errors _ _ _ _ Hfields).
    repeat split.
    + discriminate.
    + intros added Htrace Hin. exfalso. simpl in Htrace.
      destruct (SpaceMission_fields_trace lax kw w) as (reads & Hreads & Hclock).
      rewrite Hreads in Htrace. apply app_inv_head in Htrace. subst added.
      destruct (Hclock _ Hin) as [t Ht]. discriminate Ht.
    + intros Hkw. exists es. split; [reflexivity|].
      unfold SpaceMission_fields in Hfields. rewrite fst_bind_ret in Hfields.
      assert (Hes : es = line_errors (LineErrors (A := SpaceMission) es)) by reflexivity.
      rewrite Hes, <- Hfields. repeat rewrite line_errors_ap.
      repeat rewrite elem_of_app.
      left. left. right. unfold field. rewrite Hkw. simpl.
      apply elem_of_cons. left. reflexivity.
    + apply Hrules.
Qed.

(** ** Bounds are inclusive *)







(** ** A built record satisfies its constraints; an assignment is not checked *)

Lemma field_Ok_inv {A} name (v : Validator A) dflt kw a :
  field name v dflt kw = Ok a -> (exists x, v x = Ok a) \/ dflt = Some a.
Proof.
  unfold field. destruct (kw !! name) as [x|].
  - destruct (v x) eqn:Hv; simpl; [|discriminate]. intros [= <-]. eauto.
  - destruct dflt; [|discriminate]. intros [= <-]. auto.
Qed.

Lemma str_validator_Ok lo hi x s :
  str_validator (Some lo) (Some hi) x = Ok s -> length_within s lo hi = true.
Proof.
  unfold str_validator, length_within, below, above. destruct x; try discriminate.
  destruct (String.length s0 <? lo)%nat eqn:Hlo; [discriminate|].
  destruct (hi <? String.length s0)%nat eqn:Hhi; [discriminate|].
  intros [= <-]. apply Nat.ltb_ge in Hlo, Hhi.
  apply andb_true_intro. split; apply Nat.leb_le; assumption.
Qed.

Lemma int_validator_Ok lax lo hi x z :
  int_validator lax lo hi x = Ok z -> int_within z lo hi = true.
Proof.
  unfold int_validator, int_within. destruct (validate_int lax x) as [z2|]; [|discriminate].
  destruct (hi <? z2)%Z eqn:Hhi; [discriminate|].
  destruct (z2 <? lo)%Z eqn:Hlo; [discriminate|].
  intros [= <-]. apply Z.ltb_ge in Hlo, Hhi.
  apply andb_true_intro. split; apply Z.leb_le; assumption.
Qed.

Lemma float_validator_Ok lax lo hi x f :
  float_validator lax lo hi x = Ok f -> float_within f lo hi = true.
Proof.
  unfold float_validator, float_within.
  destruct (validate_float lax x) as [f2|]; [|discriminate].
  destruct (PrimFloat.leb f2 hi) eqn:Hhi; [|discriminate].
  destruct (PrimFloat.leb lo f2) eqn:Hlo; [|discriminate].
  simpl. intros [= <-]. rewrite Hhi, Hlo. reflexivity.
Qed.

Lemma optional_str_Ok hi x o :
  nullable (str_validator None (Some hi)) x = Ok o -> optional_within o hi = true.
Proof.
  unfold nullable, str_validator, optional_within, below, above.
  destruct x; try discriminate; [intros [= <-]; reflexivity|].
  destruct (hi <? String.length s)%nat eqn:Hhi; [discriminate|].
  intros [= <-]. apply Nat.leb_le. apply Nat.ltb_ge in Hhi. assumption.
Qed.

Ltac field_facts :=
  repeat match goal with
         | H : field _ _ _ _ = Ok _ |- _ => apply field_Ok_inv in H as [[? H]|H]
         | H : str_validator (Some _) (Some _) _ = Ok _ |- _ => apply str_validator_Ok in H
         | H : int_validator _ _ _ _ = Ok _ |- _ => apply int_validator_Ok in H
         | H : float_validator _ _ _ _ = Ok _ |- _ => apply float_validator_Ok in H
         | H : nullable (str_validator None (Some _)) _ = Ok _ |- _ =>
             apply optional_str_Ok in H
         | H : None = Some _ |- _ => discriminate H
         | H : Some _ = Some _ |- _ => injection H as <-
         end.

Ltac use_facts :=
  repeat match goal with H : _ = true |- _ => rewrite H; clear H end.

Lemma SpaceStation_fields_valid lax kw w self :
  fst (SpaceStation_fields lax kw w) = Ok self -> SpaceStation_constraints self = true.
Proof.
  unfold SpaceStation_fields. rewrite fst_bind_ret. intros H. invert_fields H.
  unfold station_id_field, station_name_field, crew_size_field, power_level_field,
    oxygen_level_field, notes_field in *.
  field_facts; unfold SpaceStation_constraints; simpl; use_facts; reflexivity.
Qed.

Lemma AlienContact_fields_valid lax kw w self :
  fst (AlienContact_fields lax kw w) = Ok self -> AlienContact_constraints self = true.
Proof.
  unfold AlienContact_fields. rewrite fst_bind_ret. intros H. invert_fields H.
  unfold contact_id_field, location_field, signal_strength_field, duration_minutes_field,
    witness_count_field, message_received_field in *.
  field_facts; unfold AlienContact_constraints; simpl; use_facts; reflexivity.
Qed.

Lemma CrewMember_fields_valid lax kw self :
  CrewMember_fields lax kw = Ok self -> CrewMember_constraints self = true.
Proof.
  unfold CrewMember_fields. intros H. invert_fields H.
  unfold member_id_field, member_name_field, age_field, specialization_field,
    years_experience_field in *.
  field_facts; unfold CrewMember_constraints; simpl; use_facts; reflexivity.
Qed.

Lemma SpaceMission_fields_valid lax kw w self :
  fst (SpaceMission_fields lax kw w) = Ok self -> SpaceMission_constraints self = true.
Proof.
  intros Hfields. pose proof (SpaceMission_crew_length _ _ _ _ Hfields) as Hcrew.
  revert Hfields Hcrew.
  unfold SpaceMission_fields. rewrite fst_bind_ret. intros H. invert_fields H.
  unfold mission_id_field, mission_name_field, destination_field, duration_days_field,
    budget_millions_field in *.
  simpl. intros [Hlo Hhi]. apply Nat.leb_le in Hlo, Hhi.
  match goal with H : field "crew" _ _ _ = Ok _ |- _ => clear H end.
  match goal with H : field "mission_status" _ _ _ = Ok _ |- _ => clear H end.
  field_facts; unfold SpaceMission_constraints;
    cbn [mission_id mission_name destination duration_days crew budget_millions];
    use_facts; reflexivity.
Qed.

Lemma model_init_no_validator {A} (fields : St (ValResult A)) w self :
  fst (model_init fields no_validator w) = inr self -> fst (fields w) = Ok self.
Proof.
  unfold model_init, bind, no_validator, raise, ret.
  destruct (fields w) as [[a|es] w1]; simpl; [|discriminate]. intros [= <-]. reflexivity.
Qed.

Lemma fail_fast_inr {A} name count violated message (self r : A) w :
  fst (fail_fast name count violated message self w) = inr r ->
  r = self /\ forall k, (1 <= k <= count)%nat -> violated k self = false.
Proof.
  unfold fail_fast. destruct (List.find _ _) eqn:Hfind; simpl; [discriminate|].
  intros [= <-]. split; [reflexivity|]. intros k Hk.
  apply (List.find_none _ _ Hfind k). apply List.in_seq. lia.
Qed.

Lemma model_init_inr {A} (fields : St (ValResult A)) (after : A -> Py A) w r :
  fst (model_init fields after w) = inr r ->
  exists self, fst (fields w) = Ok self /\ fst (after self (snd (fields w))) = inr r.
Proof.
  unfold model_init, bind, raise, ret.
  destruct (fields w) as [[a|es] w1]; simpl; [|discriminate]. eauto.
Qed.

Lemma AlienContact_init_inr lax kw w self :
  fst (AlienContact_init lax kw w) = inr self ->
  fst (AlienContact_fields lax kw w) = Ok self
  /\ forall k, contact_rule_violated k self = false.
Proof.
  intros H. apply model_init_inr in H as (self2 & Hfields & Hafter).
  rewrite validate_contact_fail_fast in Hafter.
  apply fail_fast_inr in Hafter as [-> Hrules]. split; [assumption|].
  intros k. destruct (decide (1 <= k <= 4)%nat) as [Hk|Hk]; [auto|].
  do 5 (destruct k as [|k]; try lia; try reflexivity).
Qed.

Lemma SpaceMission_init_inr lax kw w self :
  fst (SpaceMission_init lax kw w) = inr self ->
  fst (SpaceMission_fields lax kw w) = Ok self
  /\ forall k, mission_rule_violated k self = false.
Proof.
  intros H. apply model_init_inr in H as (self2 & Hfields & Hafter).
  rewrite validate_mission_fail_fast in Hafter.
  apply fail_fast_inr in Hafter as [-> Hrules]. split; [assumption|].
  intros k. destruct (decide (1 <= k <= 4)%nat) as [Hk|Hk]; [auto|].
  do 5 (destruct k as [|k]; try lia; try reflexivity).
Qed.

(** C4 (as amended): a record returned by the call of its class satisfies
    the constraints of its fields and violates no business rule, at the
    moment it is built.  The classes are not frozen and do not validate
    assignments: an assignment to a field stores the value, unchecked. *)
Theorem records_valid_when_built (lax : LaxParsers) (kw : kwargs) (w : World) :
  (forall self, fst (SpaceStation_init lax kw w) = inr self ->
                SpaceStation_constraints self = true)
  /\ (forall self, fst (AlienContact_init lax kw w) = inr self ->
                   AlienContact_constraints self = true
                   /\ forall k, contact_rule_violated k self = false)
  /\ (forall self, fst (CrewMember_init lax kw w) = inr self ->
                   CrewMember_constraints self = true)
  /\ (forall self, fst (SpaceMission_init lax kw w) = inr self ->
                   SpaceMission_constraints self = true
                   /\ forall k, mission_rule_violated k self = false)
  /\ (forall A (revalidate : A -> Py A) (assign : A -> A) (self : A),
         setattr model_config revalidate assign self w = (inr (assign self), w)).
Proof.
  repeat split.
  - intros self H. apply model_init_no_validator in H.
    eapply SpaceStation_fields_valid, H.
  - apply AlienContact_init_inr in H as [H _]. eapply AlienContact_fields_valid, H.
  - apply AlienContact_init_inr in H as [_ H]. apply H.
  - intros self H. apply model_init_no_validator in H.
    eapply CrewMember_fields_valid, H.
  - apply SpaceMission_init_inr in H as [H _]. eapply SpaceMission_fields_valid, H.
  - apply SpaceMission_init_inr in H as [_ H]. apply H.
Qed.

(** C4, as stated, fails: the station built from the first input of main is
    assigned a crew size of 155; the assignment is accepted and the record no
    longer satisfies the constraint of crew_size. *)
Lemma station_assignment_unchecked :
  fst ((s <~ SpaceStation_init no_parsers station1 ;;
        SpaceStation_setattr no_parsers (set_crew_size 155) s) (ticking 1000))
  = inr {| ex0.station_id := "ISS001";
           ex0.name := "International Space Station";
           ex0.crew_size := 155;
           ex0.power_level := 85.5;
           ex0.oxygen_level := 92.3;
           ex0.last_maintenance := 1000%Z;
           ex0.is_operational := true;
           ex0.notes := None |}
  /\ SpaceStation_constraints
       {| ex0.station_id := "ISS001";
          ex0.name := "International Space Station";
          ex0.crew_size := 155;
          ex0.power_level := 85.5;
          ex0.oxygen_level := 92.3;
          ex0.last_maintenance := 1000%Z;
          ex0.is_operational := true;
          ex0.notes := None |} = false.
Proof. split; vm_compute; reflexivity. Qed.

(** ** The clock is the only thing a validation takes from the world *)

Lemma factory_field_reading name (v : Validator datetime) kw w1 w2 :
  next_reading w1 = next_reading w2 ->
  fst (factory_field name v datetime_now kw w1)
  = fst (factory_field name v datetime_now kw w2).
Proof.
  unfold factory_field, next_reading. intros H.
  destruct (kw !! name); simpl; [reflexivity|]. rewrite H. reflexivity.
Qed.

Lemma factory_field_supplied name (v : Validator datetime) kw w1 w2 :
  is_Some (kw !! name) ->
  fst (factory_field name v datetime_now kw w1)
  = fst (factory_field name v datetime_now kw w2).
Proof. unfold factory_field. intros [x ->]. reflexivity. Qed.

Lemma factory_field_ticks name (v : Validator datetime) kw w :
  reads_clock_iff_absent name kw w (snd (factory_field name v datetime_now kw w)).
Proof.
  unfold reads_clock_iff_absent, factory_field. destruct (kw !! name); simpl; lia.
Qed.

Lemma fail_fast_world {A} name count violated message (self : A) w1 w2 :
  fst (fail_fast name count violated message self w1)
  = fst (fail_fast name count violated message self w2)
  /\ ticks (snd (fail_fast name count violated message self w1)) = ticks w1.
Proof. unfold fail_fast. destruct (List.find _ _); simpl; auto. Qed.

(** A call is determined by the result of its field phase. *)
Lemma model_init_world {A} (fields : St (ValResult A)) (after : A -> Py A) w1 w2 :
  fst (fields w1) = fst (fields w2) ->
  (forall self wa wb, fst (after self wa) = fst (after self wb)) ->
  fst (model_init fields after w1) = fst (model_init fields after w2).
Proof.
  intros Hfields Hafter. unfold model_init, bind, raise, ret.
  destruct (fields w1) as [r1 wa], (fields w2) as [r2 wb]. simpl in Hfields. subst r2.
  destruct r1; [apply Hafter|reflexivity].
Qed.

Lemma model_init_ticks {A} (fields : St (ValResult A)) (after : A -> Py A) w :
  (forall self wa, ticks (snd (after self wa)) = ticks wa) ->
  ticks (snd (model_init fields after w)) = ticks (snd (fields w)).
Proof.
  intros Hafter. unfold model_init, bind, raise, ret.
  destruct (fields w) as [[self|es] wa]; simpl; [apply Hafter|reflexivity].
Qed.

Lemma no_validator_world {A} (self : A) wa wb :
  fst (no_validator self wa) = fst (no_validator self wb).
Proof. reflexivity. Qed.

Lemma validate_contact_world self wa wb :
  fst (run_after "validate_contact" validate_contact self wa)
  = fst (run_after "validate_contact" validate_contact self wb).
Proof. rewrite !validate_contact_fail_fast. apply fail_fast_world. Qed.

Lemma validate_mission_world self wa wb :
  fst (run_after "validate_mission" validate_mission self wa)
  = fst (run_after "validate_mission" validate_mission self wb).
Proof. rewrite !validate_mission_fail_fast. apply fail_fast_world. Qed.

Lemma validate_contact_ticks self wa :
  ticks (snd (run_after "validate_contact" validate_contact self wa)) = ticks wa.
Proof. rewrite validate_contact_fail_fast. apply (fail_fast_world _ _ _ _ _ wa wa). Qed.

Lemma validate_mission_ticks self wa :
  ticks (snd (run_after "validate_mission" validate_mission self wa)) = ticks wa.
Proof. rewrite validate_mission_fail_fast. apply (fail_fast_world _ _ _ _ _ wa wa). Qed.

Lemma SpaceStation_init_world lax kw w1 w2 :
  fst (factory_field "last_maintenance" (datetime_validator lax) datetime_now kw w1)
  = fst (factory_field "last_maintenance" (datetime_validator lax) datetime_now kw w2) ->
  same_outcome (SpaceStation_init lax kw) w1 w2.
Proof.
  intros H. apply model_init_world; [|intros; apply no_validator_world].
  unfold SpaceStation_fields. rewrite !fst_bind_ret, H. reflexivity.
Qed.

Lemma AlienContact_init_world lax kw w1 w2 :
  fst (factory_field "timestamp" (datetime_validator lax) datetime_now kw w1)
  = fst (factory_field "timestamp" (datetime_validator lax) datetime_now kw w2) ->
  same_outcome (AlienContact_init lax kw) w1 w2.
Proof.
  intros H. apply model_init_world; [|intros; apply validate_contact_world].
  unfold AlienContact_fields. rewrite !fst_bind_ret, H. reflexivity.
Qed.

Lemma SpaceMission_init_world lax kw w1 w2 :
  fst (factory_field "launch_date" (datetime_validator lax) datetime_now kw w1)
  = fst (factory_field "launch_date" (datetime_validator lax) datetime_now kw w2) ->
  same_outcome (SpaceMission_init lax kw) w1 w2.
Proof.
  intros H. apply model_init_world; [|intros; apply validate_mission_world].
  unfold SpaceMission_fields. rewrite !fst_bind_ret, H. reflexivity.
Qed.

(** C6 (as amended): the outcome of a validation is a function of the raw
    record and of the value the wall clock returns during the call: two
    validations of one record in worlds with the same next clock reading
    have the same outcome; with the timestamp field supplied the outcome
    is the same in any two worlds; and the clock is read once when the
    timestamp field is absent, never when it is supplied (CrewMember has no
    timestamp and never reads it). *)
Theorem outcome_depends_on_clock_reading (lax : LaxParsers) (kw : kwargs) (w1 w2 : World) :
  next_reading w1 = next_reading w2 ->
  (same_outcome (SpaceStation_init lax kw) w1 w2
   /\ same_outcome (AlienContact_init lax kw) w1 w2
   /\ same_outcome (CrewMember_init lax kw) w1 w2
   /\ same_outcome (SpaceMission_init lax kw) w1 w2)
  /\ (forall wa wb,
        (is_Some (kw !! "last_maintenance"%string) ->
         same_outcome (SpaceStation_init lax kw) wa wb)
        /\ (is_Some (kw !! "timestamp"%string) ->
            same_outcome (AlienContact_init lax kw) wa wb)
        /\ (is_Some (kw !! "launch_date"%string) ->
            same_outcome (SpaceMission_init lax kw) wa wb))
  /\ (reads_clock_iff_absent "last_maintenance" kw w1 (snd (SpaceStation_init lax kw w1))
      /\ reads_clock_iff_absent "timestamp" kw w1 (snd (AlienContact_init lax kw w1))
      /\ ticks (snd (CrewMember_init lax kw w1)) = ticks w1
      /\ reads_clock_iff_absent "launch_date" kw w1 (snd (SpaceMission_init lax kw w1))).
Proof.
  intros Hclock. split; [|split].
  - repeat split.
    + apply SpaceStation_init_world, factory_field_reading, Hclock.
    + apply AlienContact_init_world, factory_field_reading, Hclock.
    + apply model_init_world; [reflexivity|intros; apply no_validator_world].
    + apply SpaceMission_init_world, factory_field_reading, Hclock.
  - intros wa wb. repeat split; intros Hsupplied.
    + apply SpaceStation_init_world, factory_field_supplied, Hsupplied.
    + apply AlienContact_init_world, factory_field_supplied, Hsupplied.
    + apply SpaceMission_init_world, factory_field_supplied, Hsupplied.
  - repeat split.
    + unfold reads_clock_iff_absent, SpaceStation_init.
      rewrite model_init_ticks by reflexivity.
      unfold SpaceStation_fields. rewrite snd_bind_ret. apply factory_field_ticks.
    + unfold reads_clock_iff_absent, AlienContact_init.
      rewrite model_init_ticks by apply validate_contact_ticks.
      unfold AlienContact_fields. rewrite snd_bind_ret. apply factory_field_ticks.
    + unfold CrewMember_init. rewrite model_init_ticks by reflexivity. reflexivity.
    + unfold reads_clock_iff_absent, SpaceMission_init.
      rewrite model_init_ticks by apply validate_mission_ticks.
      unfold SpaceMission_fields. rewrite snd_bind_ret. apply factory_field_ticks.
Qed.

Lemma outcome_depends_on_clock_reading_witness :
  same_outcome (SpaceStation_init no_parsers station1) (ticking 1000) (frozen_clock 1000%Z)
  /\ same_outcome (SpaceMission_init no_parsers mission_half) (ticking 1000)
       (frozen_clock 1000%Z).
Proof.
  destruct (outcome_depends_on_clock_reading no_parsers station1 (ticking 1000)
              (frozen_clock 1000%Z) eq_refl) as ((Hstation & _) & _).
  destruct (outcome_depends_on_clock_reading no_parsers mission_half (ticking 1000)
              (frozen_clock 1000%Z) eq_refl) as ((_ & _ & _ & Hmission) & _).
  split; assumption.
Defined.

(** C6, as stated, fails: the clock is not an argument of the call.  The
    same record validated twice in a row gets the two successive readings
    of the wall clock, and the two results differ. *)
Lemma same_record_two_readings :
  fst ((a <- SpaceStation_init no_parsers station1 ;;
        b <- SpaceStation_init no_parsers station1 ;;
        ret (a, b)) (ticking 1000))
  = (inr {| ex0.station_id := "ISS001";
            ex0.name := "International Space Station";
            ex0.crew_size := 6;
            ex0.power_level := 85.5;
            ex0.oxygen_level := 92.3;
            ex0.last_maintenance := 1000%Z;
            ex0.is_operational := true;
            ex0.notes := None |},
     inr {| ex0.station_id := "ISS001";
            ex0.name := "International Space Station";
            ex0.crew_size := 6;
            ex0.power_level := 85.5;
            ex0.oxygen_level := 92.3;
            ex0.last_maintenance := 1001%Z;
            ex0.is_operational := true;
            ex0.notes := None |}).
Proof. vm_compute. reflexivity. Qed.

(** ** A crew item that violates a constraint *)





(** ** The inputs of the three main functions *)

Example main_station1_accepted :
  fst (SpaceStation_init no_parsers station1 (ticking 1000))
  = inr {| ex0.station_id := "ISS001";
           ex0.name := "International Space Station";
           ex0.crew_size := 6;
           ex0.power_level := 85.5;
           ex0.oxygen_level := 92.3;
           ex0.last_maintenance := 1000%Z;
           ex0.is_operational := true;
           ex0.notes := None |}.
Proof. vm_compute. reflexivity. Qed.

Example main_station2_refused :
  fst (SpaceStation_init no_parsers station2 (ticking 1000))
  = inl (ValidationError [{| loc := [Key "crew_size"]; type := less_than_equal 20 |}]).
Proof. vm_compute. reflexivity. Qed.

(** Three fields at fault, three errors, in the order of the fields. *)
Example station_three_errors :
  fst (SpaceStation_init no_parsers
         (<["power_level"%string := PyFloat 250]>
            (<["name"%string := PyInt 3]> station2)) (ticking 1000))
  = inl (ValidationError
           [{| loc := [Key "name"]; type := string_type |};
            {| loc := [Key "crew_size"]; type := less_than_equal 20 |};
            {| loc := [Key "power_level"]; type := float_less_than_equal 100 |}]).
Proof. vm_compute. reflexivity. Qed.

Example main_contact2_refused :
  fst (AlienContact_init no_parsers contact2 (ticking 1000))
  = inl (ValidationError
           [line_error
              (value_error (Msg "Telepathic contact requires at least 3 witnesses"))]).
Proof. vm_compute. reflexivity. Qed.

(** The first mission of main is refused in the field phase: the launch date
    it passes is a function. *)
Example main_mission1_refused :
  fst (SpaceMission_init no_parsers mission1 (ticking 1000))
  = inl (ValidationError [{| loc := [Key "launch_date"]; type := datetime_type |}]).
Proof. vm_compute. reflexivity. Qed.

(** The crew of the second mission of main, with the launch date left out. *)
Example moon_mission_without_senior :
  fst (SpaceMission_init no_parsers (mission_of "M2024_MOON" 30 [bob]) (ticking 1000))
  = inl (ValidationError
           [line_error
              (value_error (Msg "Mission must have at least one Commander or Captain"))]).
Proof. vm_compute. reflexivity. Qed.

(** * Further properties of the models *)

(** ** Defaults *)

Lemma field_absent {A} name (v : Validator A) dflt kw a :
  kw !! name = None -> field name v dflt kw = Ok a -> dflt = Some a.
Proof.
  unfold field. intros ->. destruct dflt; [|discriminate]. intros [= <-]. reflexivity.
Qed.

Lemma factory_field_absent name (v : Validator datetime) kw w a :
  kw !! name = None ->
  fst (factory_field name v datetime_now kw w) = Ok a -> a = next_reading w.
Proof. unfold factory_field. intros ->. simpl. intros [= <-]. reflexivity. Qed.

Ltac absent name Hkw :=
  match goal with
  | H : field name _ _ _ = Ok _ |- _ =>
      apply (field_absent _ _ _ _ _ Hkw) in H; injection H as <-; reflexivity
  | H : fst (factory_field name _ _ _ _) = Ok _ |- _ =>
      apply (factory_field_absent _ _ _ _ _ Hkw) in H; subst; reflexivity
  end.

(** X1: A field left out of the input takes its declared default in the built
    record: True for is_operational and is_active, False for is_verified,
    None for notes and message_received, "planned" for mission_status, and
    the reading of the clock for the three timestamps. *)
Theorem defaults_applied (lax : LaxParsers) (kw : kwargs) (w : World) :
  (forall self, fst (SpaceStation_init lax kw w) = inr self ->
     (kw !! "is_operational"%string = None -> ex0.is_operational self = true)
     /\ (kw !! "notes"%string = None -> ex0.notes self = None)
     /\ (kw !! "last_maintenance"%string = None ->
         ex0.last_maintenance self = next_reading w))
  /\ (forall self, fst (AlienContact_init lax kw w) = inr self ->
     (kw !! "is_verified"%string = None -> is_verified self = false)
     /\ (kw !! "message_received"%string = None -> message_received self = None)
     /\ (kw !! "timestamp"%string = None -> timestamp self = next_reading w))
  /\ (forall self, fst (CrewMember_init lax kw w) = inr self ->
     kw !! "is_active"%string = None -> is_active self = true)
  /\ (forall self, fst (SpaceMission_init lax kw w) = inr self ->
     (kw !! "mission_status"%string = None -> mission_status self = "planned"%string)
     /\ (kw !! "launch_date"%string = None -> launch_date self = next_reading w)).
Proof.
  repeat split.
  - intros Hkw. apply model_init_no_validator in H. revert H.
    unfold SpaceStation_fields. rewrite fst_bind_ret. intros H. invert_fields H.
    simpl. absent "is_operational"%string Hkw.
  - intros Hkw. apply model_init_no_validator in H. revert H.
    unfold SpaceStation_fields. rewrite fst_bind_ret. intros H. invert_fields H.
    simpl. absent "notes"%string Hkw.
  - intros Hkw. apply model_init_no_validator in H. revert H.
    unfold SpaceStation_fields. rewrite fst_bind_ret. intros H. invert_fields H.
    simpl. absent "last_maintenance"%string Hkw.
  - intros Hkw. apply AlienContact_init_inr in H as [H _]. revert H.
    unfold AlienContact_fields. rewrite fst_bind_ret. intros H. invert_fields H.
    simpl. absent "is_verified"%string Hkw.
  - intros Hkw. apply AlienContact_init_inr in H as [H _]. revert H.
    unfold AlienContact_fields. rewrite fst_bind_ret. intros H. invert_fields H.
    simpl. absent "message_received"%string Hkw.
  - intros Hkw. apply AlienContact_init_inr in H as [H _]. revert H.
    unfold AlienContact_fields. rewrite fst_bind_ret. intros H. invert_fields H.
    simpl. absent "timestamp"%string Hkw.
  - intros self H Hkw. apply model_init_no_validator in H. simpl in H. revert H.
    unfold CrewMember_fields. intros H. invert_fields H.
    simpl. absent "is_active"%string Hkw.
  - intros Hkw. apply SpaceMission_init_inr in H as [H _]. revert H.
    unfold SpaceMission_fields. rewrite fst_bind_ret. intros H. invert_fields H.
    simpl. absent "mission_status"%string Hkw.
  - intros Hkw. apply SpaceMission_init_inr in H as [H _]. revert H.
    unfold SpaceMission_fields. rewrite fst_bind_ret. intros H. invert_fields H.
    simpl. absent "launch_date"%string Hkw.
Qed.

(** ** Required fields *)

Lemma init_fails_with {A} (fields : St (ValResult A)) (after : A -> Py A) w e :
  e ∈ line_errors (fst (fields w)) -> fails_with (model_init fields after) w e.
Proof.
  intros He. destruct (fst (fields w)) as [self|es] eqn:Hfields; [inversion He|].
  exists es. rewrite (model_init_errors _ _ _ _ Hfields). auto.
Qed.

Ltac pick_error :=
  first [ apply list_elem_of_singleton; reflexivity
        | apply elem_of_app; left; pick_error
        | apply elem_of_app; right; pick_error ].

Ltac each_name Hin :=
  repeat (apply elem_of_cons in Hin as [->|Hin]); [..|inversion Hin].

Ltac missing_case Hkw :=
  repeat rewrite line_errors_ap; unfold field; rewrite Hkw; cbn [line_errors];
  pick_error.

(** X2: A required field left out of the input makes the call fail, with a
    [missing] error under the name of that field, whatever the other fields
    hold. *)
Theorem missing_field_reported (lax : LaxParsers) (kw : kwargs) (w : World)
    (name : string) :
  kw !! name = None ->
  (name ∈ SpaceStation_required ->
   fails_with (SpaceStation_init lax kw) w (missing_at name))
  /\ (name ∈ AlienContact_required ->
      fails_with (AlienContact_init lax kw) w (missing_at name))
  /\ (name ∈ CrewMember_required ->
      fails_with (CrewMember_init lax kw) w (missing_at name))
  /\ (name ∈ SpaceMission_required ->
      fails_with (SpaceMission_init lax kw) w (missing_at name)).
Proof.
  intros Hkw. repeat split; intros Hin; apply init_fails_with.
  - unfold SpaceStation_fields. rewrite fst_bind_ret.
    each_name Hin; missing_case Hkw.
  - unfold AlienContact_fields. rewrite fst_bind_ret.
    each_name Hin; missing_case Hkw.
  - unfold CrewMember_fields, ret. cbn [fst].
    each_name Hin; missing_case Hkw.
  - unfold SpaceMission_fields. rewrite fst_bind_ret.
    each_name Hin; missing_case Hkw.
Qed.

Lemma missing_field_reported_witness :
  fails_with (SpaceStation_init no_parsers (delete "crew_size"%string station1))
    (ticking 0) (missing_at "crew_size")
  /\ fails_with (SpaceMission_init no_parsers (delete "crew"%string mission_half))
       (ticking 0) (missing_at "crew").
Proof.
  split.
  - apply (missing_field_reported no_parsers (delete "crew_size"%string station1)
             (ticking 0) "crew_size").
    + apply lookup_delete_eq.
    + unfold SpaceStation_required. do 2 (apply elem_of_cons; right).
      apply elem_of_cons. left. reflexivity.
  - apply (missing_field_reported no_parsers (delete "crew"%string mission_half)
             (ticking 0) "crew").
    + apply lookup_delete_eq.
    + unfold SpaceMission_required. do 4 (apply elem_of_cons; right).
      apply elem_of_cons. left. reflexivity.
Defined.

(** X3: With no argument at all, the call reports exactly the required fields as
    missing, in the order of their declaration. *)
Theorem empty_input_reports_required (lax : LaxParsers) (w : World) :
  fst (SpaceStation_init lax ∅ w)
  = inl (ValidationError (missing_at <$> SpaceStation_required))
  /\ fst (AlienContact_init lax ∅ w)
     = inl (ValidationError (missing_at <$> AlienContact_required))
  /\ fst (CrewMember_init lax ∅ w)
     = inl (ValidationError (missing_at <$> CrewMember_required))
  /\ fst (SpaceMission_init lax ∅ w)
     = inl (ValidationError (missing_at <$> SpaceMission_required)).
Proof. repeat split. Qed.

(** ** Keys that name no field *)

Lemma field_other_key {A} name (v : Validator A) dflt kw k x :
  k <> name -> field name v dflt (<[k:=x]> kw) = field name v dflt kw.
Proof. intros Hne. unfold field. rewrite lookup_insert_ne by assumption. reflexivity. Qed.

Lemma factory_field_other_key {A} name (v : Validator A) (f : St A) kw k x :
  k <> name -> factory_field name v f (<[k:=x]> kw) = factory_field name v f kw.
Proof.
  intros Hne. unfold factory_field. rewrite lookup_insert_ne by assumption. reflexivity.
Qed.

Ltac other_key Hk :=
  unfold model_init, bind;
  repeat rewrite factory_field_other_key
    by (intros ->; apply Hk; apply list_elem_of_In; simpl; tauto);
  repeat match goal with |- context [factory_field ?n ?v ?f ?kw ?w] =>
           destruct (factory_field n v f kw w)
         end;
  cbv beta iota; unfold ret;
  repeat rewrite field_other_key
    by (intros ->; apply Hk; apply list_elem_of_In; simpl; tauto);
  reflexivity.

(** X4: An argument whose name is not a declared field is ignored: the call
    returns or raises the same, and leaves the same world, with or without
    it. *)
Theorem unknown_key_ignored (lax : LaxParsers) (kw : kwargs) (w : World)
    (k : string) (v : PyVal) :
  (k ∉ SpaceStation_declared ->
   SpaceStation_init lax (<[k:=v]> kw) w = SpaceStation_init lax kw w)
  /\ (k ∉ AlienContact_declared ->
      AlienContact_init lax (<[k:=v]> kw) w = AlienContact_init lax kw w)
  /\ (k ∉ CrewMember_declared ->
      CrewMember_init lax (<[k:=v]> kw) w = CrewMember_init lax kw w)
  /\ (k ∉ SpaceMission_declared ->
      SpaceMission_init lax (<[k:=v]> kw) w = SpaceMission_init lax kw w).
Proof.
  repeat split; intros Hk.
  - unfold SpaceStation_init, SpaceStation_fields. other_key Hk.
  - unfold AlienContact_init, AlienContact_fields. other_key Hk.
  - unfold CrewMember_init, CrewMember_fields. other_key Hk.
  - unfold SpaceMission_init, SpaceMission_fields. other_key Hk.
Qed.

(** ** The values of the enums *)


(** ** The call accepts exactly the records within the constraints *)

Lemma accepts_Ok {A} (a : A) : accepts_when (Ok a) a true.
Proof. split; [reflexivity|discriminate]. Qed.

Lemma accepts_ap {A B} (rf : ValResult (A -> B)) (rx : ValResult A) g a c1 c2 :
  accepts_when rf g c1 -> accepts_when rx a c2 ->
  accepts_when (rf <*> rx) (g a) (c1 && c2).
Proof.
  intros [Hf1 Hf0] [Hx1 Hx0]. split; intros Hc.
  - apply andb_prop in Hc as [H1 H2]. rewrite (Hf1 H1), (Hx1 H2). reflexivity.
  - rewrite is_ok_ap. apply andb_false_iff in Hc as [H|H].
    + rewrite (Hf0 H). reflexivity.
    + rewrite (Hx0 H). apply andb_false_r.
Qed.

Lemma accepts_field {A} name (v : Validator A) dflt kw x a c :
  kw !! name = Some x -> accepts_when (v x) a c ->
  accepts_when (field name v dflt kw) a c.
Proof.
  intros Hkw [H1 H0]. unfold field. rewrite Hkw. split; intros Hc.
  - rewrite (H1 Hc). reflexivity.
  - specialize (H0 Hc). destruct (v x); [discriminate|reflexivity].
Qed.

Lemma accepts_cast {A} (r : ValResult A) a c c2 :
  accepts_when r a c -> c = c2 -> accepts_when r a c2.
Proof. intros H <-. exact H. Qed.

Lemma accepts_inv {A} (r : ValResult A) a c :
  accepts_when r a c -> (r = Ok a <-> c = true) /\ (forall b, r = Ok b -> b = a).
Proof.
  intros [H1 H0]. split; [split|].
  - intros Hr. destruct c; [reflexivity|]. rewrite Hr in H0. discriminate (H0 eq_refl).
  - exact H1.
  - intros b Hr. destruct c.
    + rewrite (H1 eq_refl) in Hr. congruence.
    + rewrite Hr in H0. discriminate (H0 eq_refl).
Qed.

Lemma accepts_str lo hi s :
  accepts_when (str_validator (Some lo) (Some hi) (PyStr s)) s (length_within s lo hi).
Proof.
  unfold str_validator, length_within, below, above.
  rewrite !Nat.ltb_antisym.
  destruct (lo <=? String.length s)%nat, (String.length s <=? hi)%nat;
    split; simpl; auto; discriminate.
Qed.

Lemma accepts_int lax lo hi z :
  accepts_when (int_validator lax lo hi (PyInt z)) z (int_within z lo hi).
Proof.
  unfold int_validator, int_within, validate_int.
  rewrite !Z.ltb_antisym.
  destruct (lo <=? z)%Z, (z <=? hi)%Z; split; simpl; auto; discriminate.
Qed.

Lemma accepts_float lax lo hi f :
  accepts_when (float_validator lax lo hi (PyFloat f)) f (float_within f lo hi).
Proof.
  unfold float_validator, float_within, validate_float.
  destruct (PrimFloat.leb lo f), (PrimFloat.leb f hi); split; simpl; auto; discriminate.
Qed.

Lemma accepts_optional hi o :
  accepts_when (nullable (str_validator None (Some hi)) (optional_str o)) o
    (optional_within o hi).
Proof.
  destruct o as [s|]; simpl; [|apply accepts_Ok].
  unfold str_validator, below, above. rewrite Nat.ltb_antisym.
  destruct (String.length s <=? hi)%nat; split; simpl; auto; discriminate.
Qed.

Lemma iter_instances lax max n ms : forall index output errors,
  (index + length ms <= max)%nat ->
  validate_iter_to_vec (CrewMember_validator lax) (Some max) n (PyCrewMember <$> ms)
    index output errors
  = match errors with [] => Ok (output ++ ms) | _ => LineErrors errors end.
Proof.
  induction ms as [|m ms IH]; intros index output errors Hlen; simpl.
  - rewrite app_nil_r. reflexivity.
  - simpl in Hlen.
    replace (max <? S index)%nat with false by (symmetry; apply Nat.ltb_ge; lia).
    rewrite IH by lia. rewrite <- app_assoc. reflexivity.
Qed.

Lemma accepts_crew lax ms :
  accepts_when (crew_field lax (PyList (PyCrewMember <$> ms))) ms
    ((1 <=? length ms)%nat && (length ms <=? 12)%nat).
Proof.
  destruct (length ms <=? 12)%nat eqn:Hmax.
  - apply Nat.leb_le in Hmax. unfold crew_field, list_validator.
    rewrite iter_instances by (simpl; lia).
    simpl. destruct ms; simpl; split; auto; discriminate.
  - apply Nat.leb_gt in Hmax.
    rewrite crew_field_beyond_max by (rewrite length_fmap; lia).
    rewrite andb_false_r. split; [discriminate|reflexivity].
Qed.

Lemma accepts_factory_field {A} name (v : Validator A) (f : St A) kw w x a c :
  kw !! name = Some x -> accepts_when (v x) a c ->
  accepts_when (fst (factory_field name v f kw w)) a c.
Proof.
  intros Hkw [H1 H0]. unfold factory_field. rewrite Hkw. simpl. split; intros Hc.
  - rewrite (H1 Hc). reflexivity.
  - specialize (H0 Hc). destruct (v x); [discriminate|reflexivity].
Qed.

Lemma accepts_Rank r : accepts_when (Rank_validator (PyStr (Rank_value r))) r true.
Proof. destruct r; apply accepts_Ok. Qed.

Lemma accepts_ContactType c :
  accepts_when (ContactType_validator (PyStr (ContactType_value c))) c true.
Proof. destruct c; apply accepts_Ok. Qed.

Ltac supplied :=
  first [ eapply accepts_field; [reflexivity|]
        | eapply accepts_factory_field; [reflexivity|] ];
  first [ apply accepts_str | apply accepts_int | apply accepts_float
        | apply accepts_optional | apply accepts_crew | apply accepts_Rank
        | apply accepts_ContactType | apply accepts_Ok ].

Ltac dumped := repeat eapply accepts_ap; first [apply accepts_Ok | supplied].

Lemma SpaceStation_fields_dump lax s w :
  accepts_when (fst (SpaceStation_fields lax (SpaceStation_dump s) w)) s
    (SpaceStation_constraints s).
Proof.
  unfold SpaceStation_fields. rewrite fst_bind_ret. destruct s.
  eapply accepts_cast; [dumped|].
  unfold SpaceStation_constraints. cbn. btauto.
Qed.

Lemma AlienContact_fields_dump lax c w :
  accepts_when (fst (AlienContact_fields lax (AlienContact_dump c) w)) c
    (AlienContact_constraints c).
Proof.
  unfold AlienContact_fields. rewrite fst_bind_ret. destruct c.
  eapply accepts_cast; [dumped|].
  unfold AlienContact_constraints. cbn. btauto.
Qed.

Lemma CrewMember_fields_dump lax m :
  accepts_when (CrewMember_fields lax (CrewMember_dump m)) m (CrewMember_constraints m).
Proof.
  unfold CrewMember_fields. destruct m.
  eapply accepts_cast; [dumped|].
  unfold CrewMember_constraints. cbn. btauto.
Qed.

Lemma SpaceMission_fields_dump lax m w :
  accepts_when (fst (SpaceMission_fields lax (SpaceMission_dump m) w)) m
    (SpaceMission_constraints m).
Proof.
  unfold SpaceMission_fields. rewrite fst_bind_ret. destruct m.
  eapply accepts_cast; [dumped|].
  unfold SpaceMission_constraints. cbn [mission_id mission_name destination duration_days
    crew budget_millions]. btauto.
Qed.

Lemma fail_fast_none {A} name count violated message (self : A) w :
  (forall k, violated k self = false) ->
  fst (fail_fast name count violated message self w) = inr self.
Proof.
  intros Hnone. unfold fail_fast. destruct (List.find _ _) as [i|] eqn:Hfind; [|reflexivity].
  apply List.find_some in Hfind as [_ Hi]. rewrite Hnone in Hi. discriminate.
Qed.

Lemma returns_no_validator {A} (fields : St (ValResult A)) w a c :
  accepts_when (fst (fields w)) a c ->
  returns_exactly (model_init fields no_validator) w a (c = true).
Proof.
  intros Hacc. apply accepts_inv in Hacc as [Hiff Huniq]. split; [split|].
  - intros H. apply model_init_no_validator in H. apply Hiff, H.
  - intros Hc. apply Hiff in Hc. rewrite (model_init_ok _ _ _ _ Hc). reflexivity.
  - intros r H. apply model_init_no_validator in H. apply Huniq, H.
Qed.

(** X6: The call accepts exactly the records within the constraints of their
    fields that violate no business rule: passed the field values of such a
    record, it returns that record, unchanged; passed the field values of
    any other record, it returns nothing. *)
Theorem accepts_exactly_valid_records (lax : LaxParsers) (w : World) :
  (forall s, returns_exactly (SpaceStation_init lax (SpaceStation_dump s)) w s
               (SpaceStation_constraints s = true))
  /\ (forall c, returns_exactly (AlienContact_init lax (AlienContact_dump c)) w c
                  (AlienContact_constraints c = true
                   /\ forall k, contact_rule_violated k c = false))
  /\ (forall m, returns_exactly (CrewMember_init lax (CrewMember_dump m)) w m
                  (CrewMember_constraints m = true))
  /\ (forall m, returns_exactly (SpaceMission_init lax (SpaceMission_dump m)) w m
                  (SpaceMission_constraints m = true
                   /\ forall k, mission_rule_violated k m = false)).
Proof.
  split; [|split; [|split]].
  - intros s. apply returns_no_validator, SpaceStation_fields_dump.
  - intros c.
    destruct (accepts_inv _ _ _ (AlienContact_fields_dump lax c w)) as [Hiff Huniq].
    split; [split|].
    + intros H. apply AlienContact_init_inr in H as [Hfields Hrules].
      split; [apply Hiff, Hfields|exact Hrules].
    + intros [Hc Hrules]. apply Hiff in Hc.
      unfold AlienContact_init. rewrite (model_init_ok _ _ _ _ Hc).
      rewrite validate_contact_fail_fast. apply fail_fast_none, Hrules.
    + intros r H. apply AlienContact_init_inr in H as [Hfields _]. apply Huniq, Hfields.
  - intros m. apply (returns_no_validator (ret (CrewMember_fields lax (CrewMember_dump m)))).
    apply CrewMember_fields_dump.
  - intros m.
    destruct (accepts_inv _ _ _ (SpaceMission_fields_dump lax m w)) as [Hiff Huniq].
    split; [split|].
    + intros H. apply SpaceMission_init_inr in H as [Hfields Hrules].
      split; [apply Hiff, Hfields|exact Hrules].
    + intros [Hc Hrules]. apply Hiff in Hc.
      unfold SpaceMission_init. rewrite (model_init_ok _ _ _ _ Hc).
      rewrite validate_mission_fail_fast. apply fail_fast_none, Hrules.
    + intros r H. apply SpaceMission_init_inr in H as [Hfields _]. apply Huniq, Hfields.
Qed.

(** ** The shape of a failure *)
















(** ** The thresholds of the rules are strict *)

(** X8: A contact that passes the field phase and rules 1 to 3 and whose signal
    is not above 7.0 is accepted whatever its message, None and the empty
    string included; 7.0 itself is not a strong signal. *)
Theorem weak_signal_needs_no_message (lax : LaxParsers) (kw : kwargs) (w : World)
    (self : AlienContact) :
  fst (AlienContact_fields lax kw w) = Ok self ->
  contact_rule_violated 1 self = false ->
  contact_rule_violated 2 self = false ->
  contact_rule_violated 3 self = false ->
  PrimFloat.ltb 7 (signal_strength self) = false ->
  fst (AlienContact_init lax kw w) = inr self.
Proof.
  intros Hfields H1 H2 H3 Hsignal.
  unfold AlienContact_init. rewrite (model_init_ok _ _ _ _ Hfields).
  rewrite validate_contact_fail_fast. unfold fail_fast. simpl List.find.
  simpl in H1, H2, H3. rewrite H1, H2, H3, Hsignal. reflexivity.
Qed.

Lemma weak_signal_needs_no_message_witness :
  fst (AlienContact_init no_parsers contact_at_threshold (ticking 1000))
  = inr {| contact_id := "AC_2024_001";
           timestamp := 1000%Z;
           location := "Area 51, Nevada";
           contact_type := radio;
           signal_strength := 7;
           duration_minutes := 45;
           witness_count := 5;
           message_received := None;
           is_verified := false |}.
Proof.
  apply (weak_signal_needs_no_message no_parsers contact_at_threshold (ticking 1000));
    vm_compute; reflexivity.
Defined.

(** X9: A mission of at most 365 days that passes the field phase and rules 1
    and 2 is never refused for the experience of its crew: it is accepted
    exactly when every member is active.  365 days is not a long mission. *)
Theorem short_mission_skips_experience (lax : LaxParsers) (kw : kwargs) (w : World)
    (self : SpaceMission) :
  fst (SpaceMission_fields lax kw w) = Ok self ->
  String.prefix "M" (mission_id self) = true ->
  has_senior self = true ->
  (duration_days self <= 365)%Z ->
  (fst (SpaceMission_init lax kw w) = inr self
   <-> forall c, c ∈ crew self -> is_active c = true)
  /\ fst (SpaceMission_init lax kw w)
     <> inl (ValidationError
               [line_error
                  (value_error
                     (Msg "For long missions (> 365 days) need 50% experienced crew (5+ years)"))]).
Proof.
  intros Hfields Hid Hsenior Hshort.
  unfold SpaceMission_init. rewrite (model_init_ok _ _ _ _ Hfields).
  rewrite validate_mission_fail_fast. unfold fail_fast. simpl List.find.
  rewrite Hid, Hsenior. simpl negb. cbv iota.
  replace (365 <? duration_days self)%Z with false by (symmetry; apply Z.ltb_ge; lia).
  simpl andb. cbv iota.
  pose proof (inactive_nil self) as Hnil.
  destruct (inactive self) eqn:Hin; simpl.
  - split; [|discriminate]. split; [intros _; apply Hnil; reflexivity|reflexivity].
  - split; [|discriminate]. split; [discriminate|].
    intros Hall. pose proof (proj2 Hnil Hall) as Habs. discriminate Habs.
Qed.

Lemma short_mission_skips_experience_witness :
  fst (SpaceMission_init no_parsers mission_one_year (ticking 1000))
  = inr {| mission_id := "M2024_MOON";
           mission_name := "Mars Colony Establishment";
           destination := "Mars";
           launch_date := 1000%Z;
           duration_days := 365;
           crew := [ {| member_id := "C007"; name := "James Kirk"; rank := captain;
                        age := 35; specialization := "Command";
                        years_experience := 1; is_active := true |} ];
           mission_status := "planned";
           budget_millions := 2500 |}.
Proof.
  refine (proj2 (proj1 (short_mission_skips_experience no_parsers mission_one_year
                          (ticking 1000) _ _ _ _ _)) _);
    try (vm_compute; reflexivity).
  - vm_compute. discriminate.
  - intros c Hc. apply list_elem_of_singleton in Hc as ->. reflexivity.
Defined.

(** ** What holds of every accepted contact and mission *)

(** X10: An accepted contact has an id that starts with AC; it is verified if
    physical, has at least 3 witnesses if telepathic, and carries a non-empty
    message if its signal is above 7.0.  An accepted mission has an id that
    starts with M, a commander or a captain in its crew, only active members,
    and, if longer than 365 days, at least half of its crew with more than 4
    years of experience. *)
Theorem accepted_records_invariants (lax : LaxParsers) (kw : kwargs) (w : World) :
  (forall c, fst (AlienContact_init lax kw w) = inr c ->
     substring 0 2 (contact_id c) = "AC"%string
     /\ (contact_type c = physical -> is_verified c = true)
     /\ (contact_type c = telepathic -> (3 <= witness_count c)%Z)
     /\ (PrimFloat.ltb 7 (signal_strength c) = true ->
         exists s, message_received c = Some s /\ s <> ""%string))
  /\ (forall m, fst (SpaceMission_init lax kw w) = inr m ->
     String.prefix "M" (mission_id m) = true
     /\ (exists c, c ∈ crew m /\ (rank c = commander \/ rank c = captain))
     /\ ((365 < duration_days m)%Z -> (length (crew m) <= 2 * experienced m)%nat)
     /\ (forall c, c ∈ crew m -> is_active c = true)).
Proof.
  split.
  - intros c H. apply AlienContact_init_inr in H as [_ Hrules].
    pose proof (Hrules 1%nat) as H1. pose proof (Hrules 2%nat) as H2.
    pose proof (Hrules 3%nat) as H3. pose proof (Hrules 4%nat) as H4.
    simpl in H1, H2, H3, H4. repeat split.
    + apply negb_false_iff, String.eqb_eq in H1. exact H1.
    + intros Hphys. rewrite Hphys in H2. simpl in H2.
      apply negb_false_iff in H2. exact H2.
    + intros Htele. rewrite Htele in H3. simpl in H3. apply Z.ltb_ge in H3. exact H3.
    + intros Hsignal. rewrite Hsignal in H4. simpl in H4. apply negb_false_iff in H4.
      destruct (message_received c) as [[|a s]|]; try discriminate H4.
      eexists. split; [reflexivity|discriminate].
  - intros m H. apply SpaceMission_init_inr in H as [Hfields Hrules].
    pose proof (Hrules 1%nat) as H1. pose proof (Hrules 2%nat) as H2.
    pose proof (Hrules 3%nat) as H3. pose proof (Hrules 4%nat) as H4.
    simpl in H1, H2, H3, H4. repeat split.
    + apply negb_false_iff in H1. exact H1.
    + apply negb_false_iff in H2. unfold has_senior in H2.
      apply existsb_exists in H2 as (c & Hc & Hrank).
      exists c. split; [apply list_elem_of_In; exact Hc|].
      destruct (rank c); try discriminate Hrank; auto.
    + intros Hlong. apply Z.ltb_lt in Hlong. rewrite Hlong in H3. simpl in H3.
      rewrite ratio_below_half in H3.
      * apply Nat.ltb_ge in H3. exact H3.
      * apply (SpaceMission_crew_length _ _ _ _ Hfields).
      * apply experienced_le.
    + apply inactive_nil. destruct (inactive m); [reflexivity|discriminate H4].
Qed.

(** ** The crew of a built mission follows the crew list *)

Lemma iter_errors_stay {A} (item : Validator A) max n items :
  forall index output errors out,
    errors <> [] ->
    validate_iter_to_vec item max n items index output errors <> Ok out.
Proof.
  induction items as [|x rest IH]; intros index output errors out Hne; simpl.
  - destruct errors; [congruence|discriminate].
  - destruct (item x) as [a|es]; destruct (above (S index) max); try discriminate.
    + apply IH. assumption.
    + apply IH. destruct errors; [congruence|discriminate].
Qed.

Lemma iter_output {A} (item : Validator A) max n items :
  (forall x, item x <> LineErrors []) ->
  forall index output errors out,
    validate_iter_to_vec item max n items index output errors = Ok out ->
    exists ms, out = output ++ ms /\ Forall2 (fun x m => item x = Ok m) items ms.
Proof.
  intros Hitem.
  induction items as [|x rest IH]; intros index output errors out; simpl.
  - destruct errors; [|discriminate]. intros [= <-].
    exists []. rewrite app_nil_r. split; [reflexivity|constructor].
  - specialize (Hitem x). destruct (item x) as [a|es] eqn:Hx;
      destruct (above (S index) max); try discriminate.
    + intros H. apply IH in H as (ms & -> & Hall).
      exists (a :: ms). rewrite <- app_assoc. split; [reflexivity|].
      constructor; assumption.
    + intros H. exfalso. revert H. apply iter_errors_stay.
      destruct es; [congruence|]. destruct errors; discriminate.
Qed.

(** X11: The crew of a built mission has one member per item of the crew list,
    in the order of the list: an item that is an instance is that member, an
    item that is a mapping is the member its fields validate to. *)
Theorem crew_follows_input (lax : LaxParsers) (kw : kwargs) (w : World)
    (self : SpaceMission) (l : list PyVal) :
  fst (SpaceMission_init lax kw w) = inr self ->
  kw !! "crew"%string = Some (PyList l) ->
  length (crew self) = length l
  /\ (forall i m, l !! i = Some (PyCrewMember m) -> crew self !! i = Some m)
  /\ (forall i d, l !! i = Some (PyDict d) ->
        exists m, crew self !! i = Some m /\ CrewMember_fields lax d = Ok m).
Proof.
  intros Hinit Hkw. apply SpaceMission_init_inr in Hinit as [Hfields _].
  apply SpaceMission_fields_crew in Hfields. unfold field in Hfields.
  rewrite Hkw in Hfields. unfold crew_field, list_validator in Hfields.
  destruct (validate_iter_to_vec _ _ _ _ _ _ _) as [out|es] eqn:Hiter;
    [|discriminate Hfields].
  apply (iter_output _ _ _ _ (honest_CrewMember_validator lax)) in Hiter
    as (ms & -> & Hall).
  cbn [app] in Hfields.
  destruct (below (length ms) (Some 1%nat)); [discriminate Hfields|].
  injection Hfields as <-. repeat split.
  - symmetry. eapply Forall2_length, Hall.
  - intros i m Hi. destruct (Forall2_lookup_l _ _ _ _ _ Hall Hi) as (m2 & Hm2 & Hv).
    simpl in Hv. injection Hv as <-. exact Hm2.
  - intros i d Hi. destruct (Forall2_lookup_l _ _ _ _ _ Hall Hi) as (m2 & Hm2 & Hv).
    exists m2. split; [exact Hm2|exact Hv].
Qed.

Lemma crew_follows_input_witness :
  match fst (SpaceMission_init no_parsers mission_half (ticking 0)) with
  | inr self =>
      length (crew self) = 2%nat
      /\ exists m, crew self !! 1%nat = Some m
                   /\ CrewMember_fields no_parsers
                        (member_kw "C004" "Bob" "cadet" "Cleaning" 1 22) = Ok m
  | inl _ => False
  end.
Proof.
  destruct (fst (SpaceMission_init no_parsers mission_half (ticking 0)))
    as [e|self] eqn:Hinit; [vm_compute in Hinit; discriminate Hinit|].
  destruct (crew_follows_input no_parsers mission_half (ticking 0) self [sarah; bob]
              Hinit ltac:(vm_compute; reflexivity)) as (Hlen & _ & Hdict).
  split; [exact Hlen|]. apply (Hdict 1%nat). reflexivity.
Defined.

(** ** None for an optional field *)

Lemma field_delete_other {A} name (v : Validator A) dflt kw k :
  k <> name -> field name v dflt (delete k kw) = field name v dflt kw.
Proof. intros Hne. unfold field. rewrite lookup_delete_ne by assumption. reflexivity. Qed.

Lemma factory_field_delete_other {A} name (v : Validator A) (f : St A) kw k :
  k <> name -> factory_field name v f (delete k kw) = factory_field name v f kw.
Proof.
  intros Hne. unfold factory_field. rewrite lookup_delete_ne by assumption. reflexivity.
Qed.

Lemma optional_None_absent name hi kw :
  field name (nullable (str_validator None (Some hi))) (Some None) (<[name:=PyNone]> kw)
  = field name (nullable (str_validator None (Some hi))) (Some None) (delete name kw).
Proof. unfold field. rewrite lookup_insert_eq, lookup_delete_eq. reflexivity. Qed.

Ltac other_fields :=
  repeat match goal with
         | |- context [field ?n ?v ?d (<[?k:=?x]> ?kw)] =>
             rewrite (field_other_key n v d kw k x) by discriminate
         | |- context [field ?n ?v ?d (delete ?k ?kw)] =>
             rewrite (field_delete_other n v d kw k) by discriminate
         end.

Ltac same_fields :=
  unfold model_init, bind;
  repeat rewrite factory_field_other_key by discriminate;
  repeat rewrite factory_field_delete_other by discriminate;
  repeat match goal with |- context [factory_field ?n ?v ?f ?kw ?w] =>
           destruct (factory_field n v f kw w)
         end;
  cbv beta iota; unfold ret; other_fields.

(** X12: Passing None for notes or for message_received is the same as leaving
    the field out; None for a field that is not Optional, such as
    is_operational, is refused under the name of that field. *)
Theorem none_only_for_optional (lax : LaxParsers) (kw : kwargs) (w : World) :
  SpaceStation_init lax (<["notes"%string := PyNone]> kw) w
  = SpaceStation_init lax (delete "notes"%string kw) w
  /\ AlienContact_init lax (<["message_received"%string := PyNone]> kw) w
     = AlienContact_init lax (delete "message_received"%string kw) w
  /\ fails_with (SpaceStation_init lax (<["is_operational"%string := PyNone]> kw)) w
       {| loc := [Key "is_operational"]; type := bool_type |}
  /\ fails_with (CrewMember_init lax (<["is_active"%string := PyNone]> kw)) w
       {| loc := [Key "is_active"]; type := bool_type |}.
Proof.
  repeat split.
  - unfold SpaceStation_init, SpaceStation_fields. same_fields.
    unfold notes_field. rewrite optional_None_absent. other_fields. reflexivity.
  - unfold AlienContact_init, AlienContact_fields. same_fields.
    unfold message_received_field. rewrite optional_None_absent. other_fields.
    reflexivity.
  - apply init_fails_with. unfold SpaceStation_fields. rewrite fst_bind_ret.
    repeat rewrite line_errors_ap. apply elem_of_app. left. apply elem_of_app. right.
    unfold field. rewrite lookup_insert_eq. simpl. apply list_elem_of_singleton.
    reflexivity.
  - apply init_fails_with. unfold CrewMember_fields, ret. cbn [fst].
    repeat rewrite line_errors_ap. apply elem_of_app. right.
    unfold field. rewrite lookup_insert_eq. simpl. apply list_elem_of_singleton.
    reflexivity.
Qed.

(** ** What display_mission prints for an accepted mission *)



(** ** Validating an accepted record again *)

(** X14: A record accepted by the call is accepted again, unchanged, when its
    field values are passed back to the call, at any later time: the clock
    is not read, every timestamp being supplied. *)
Theorem revalidation_is_identity (lax : LaxParsers) (kw : kwargs) (w w2 : World) :
  (forall self, fst (SpaceStation_init lax kw w) = inr self ->
     SpaceStation_init lax (SpaceStation_dump self) w2 = (inr self, w2))
  /\ (forall self, fst (AlienContact_init lax kw w) = inr self ->
        fst (AlienContact_init lax (AlienContact_dump self) w2) = inr self
        /\ ticks (snd (AlienContact_init lax (AlienContact_dump self) w2)) = ticks w2)
  /\ (forall self, fst (CrewMember_init lax kw w) = inr self ->
        CrewMember_init lax (CrewMember_dump self) w2 = (inr self, w2))
  /\ (forall self, fst (SpaceMission_init lax kw w) = inr self ->
        fst (SpaceMission_init lax (SpaceMission_dump self) w2) = inr self
        /\ ticks (snd (SpaceMission_init lax (SpaceMission_dump self) w2)) = ticks w2).
Proof.
  split; [|split; [|split]].
  - intros self H. apply model_init_no_validator in H.
    apply SpaceStation_fields_valid in H.
    destruct (SpaceStation_fields_dump lax self w2) as [Hok _]. specialize (Hok H).
    unfold SpaceStation_init. rewrite (model_init_ok _ _ _ _ Hok).
    reflexivity.
  - intros self H. apply AlienContact_init_inr in H as [Hfields Hrules].
    apply AlienContact_fields_valid in Hfields.
    destruct (AlienContact_fields_dump lax self w2) as [Hok _]. specialize (Hok Hfields).
    unfold AlienContact_init. rewrite (model_init_ok _ _ _ _ Hok).
    rewrite validate_contact_fail_fast. split; [apply fail_fast_none, Hrules|].
    destruct (fail_fast_world "validate_contact" 4 contact_rule_violated
                contact_rule_message self
                (snd (AlienContact_fields lax (AlienContact_dump self) w2))
                w2) as [_ ->].
    unfold AlienContact_fields. rewrite snd_bind_ret. reflexivity.
  - intros self H. apply model_init_no_validator in H. simpl in H.
    apply CrewMember_fields_valid in H.
    destruct (CrewMember_fields_dump lax self) as [Hok _]. specialize (Hok H).
    unfold CrewMember_init, model_init, bind, ret. rewrite Hok. reflexivity.
  - intros self H. apply SpaceMission_init_inr in H as [Hfields Hrules].
    apply SpaceMission_fields_valid in Hfields.
    destruct (SpaceMission_fields_dump lax self w2) as [Hok _]. specialize (Hok Hfields).
    unfold SpaceMission_init. rewrite (model_init_ok _ _ _ _ Hok).
    rewrite validate_mission_fail_fast. split; [apply fail_fast_none, Hrules|].
    destruct (fail_fast_world "validate_mission" 4 mission_rule_violated
                mission_rule_message self
                (snd (SpaceMission_fields lax (SpaceMission_dump self) w2))
                w2) as [_ ->].
    unfold SpaceMission_fields. rewrite snd_bind_ret. reflexivity.
Qed.
